(** * Handlebars tokenizer state (vs/languages/handlebars/common/handlebars.ts)

    A shallow embedding of [HandlebarsState] and [HandlebarsMode]: the lexical
    state that adds the discriminator [handlebarsKind] to the HTML state, its
    [makeClone], [equals] and [tokenize] methods, and the two places of the
    mode that create fresh states.

    The HTML mode (the super class), the line stream and the token type
    constants live in other modules of the repository.  They appear here as
    section variables (the HTML tokenizer, the constants) or as definitions
    whose comment says that they follow the specification (the stream). *)

From Stdlib Require Import String Ascii List Bool Arith ZArith Lia.
Import ListNotations.
Local Open Scope string_scope.
Local Open Scope list_scope.
Local Open Scope nat_scope.

(** ** Characters and literals *)

(** A line is a sequence of code units; the code units below 256 are the
    ones this development represents. *)
Definition chars (s : string) : list ascii := list_ascii_of_string s.

Definition text (l : list ascii) : string := string_of_list_ascii l.

(** The character class [\s] of a JavaScript regular expression, on the code
    units below 256: tab, line feed, vertical tab, form feed, carriage
    return, space and no-break space. *)
Definition isSpace (c : ascii) : bool :=
  match N_of_ascii c with
  | 9%N | 10%N | 11%N | 12%N | 13%N | 32%N | 160%N => true
  | _ => false
  end.

(** The regular expression [/^[^\s}]/] of the source, as a predicate on the
    next character. *)
Definition notSpaceNorBrace (c : ascii) : bool :=
  negb (isSpace c || Ascii.eqb c "}"%char).

(** [prefixb lit s]: the text [s] starts with the literal [lit]. *)
Fixpoint prefixb (lit s : list ascii) : bool :=
  match lit, s with
  | [], _ => true
  | _ :: _, [] => false
  | a :: lit', b :: s' => Ascii.eqb a b && prefixb lit' s'
  end.

(** [run p s]: the length of the longest prefix of [s] whose characters all
    satisfy [p]. *)
Fixpoint run (p : ascii -> bool) (s : list ascii) : nat :=
  match s with
  | c :: s' => if p c then S (run p s') else 0
  | [] => 0
  end.

(** ** The line stream ([modes.IStream])

    Modelled from the spec: the stream class is not among the sources; the
    specification describes the cursor by its primitives: peek the next
    character without consuming it; consume an exact literal, returning the
    consumed text, or the empty text without moving on a mismatch; consume
    while a character class holds, returning the consumed text; consume while
    whitespace; step backward by N characters.  At the end of the line there
    is no next character, and [peek] answers [None], which no comparison of the
    tokenizer matches. *)
Record LineStream := mkStream { source : list ascii; pos : nat }.

Definition startOfLine (line : list ascii) : LineStream := mkStream line 0.

Definition rest (s : LineStream) : list ascii := skipn (pos s) (source s).

Definition eos (s : LineStream) : bool := length (source s) <=? pos s.

Definition advance (n : nat) (s : LineStream) : LineStream :=
  mkStream (source s) (pos s + n).

Definition peek (s : LineStream) : option ascii := hd_error (rest s).

Definition advanceIfString (lit : list ascii) (s : LineStream) : list ascii * LineStream :=
  if prefixb lit (rest s) then (lit, advance (length lit) s) else ([], s).

Definition advanceWhile (p : ascii -> bool) (s : LineStream) : list ascii * LineStream :=
  let n := run p (rest s) in (firstn n (rest s), advance n s).

(** Consume while whitespace: the whitespace of the stream is taken to be
    the class [\s]. *)
Definition skipWhitespace (s : LineStream) : list ascii * LineStream :=
  advanceWhile isSpace s.

Definition goBack (n : nat) (s : LineStream) : LineStream :=
  mkStream (source s) (pos s - n).

(** [next === c] for the result of [peek]. *)
Definition peekIs (s : LineStream) (c : ascii) : bool :=
  match peek s with
  | Some d => Ascii.eqb d c
  | None => false
  end.

(** [next === ' ' || next === '\t' || next === '}'] for [next = stream.peek()]. *)
Definition endsKeyword (s : LineStream) : bool :=
  peekIs s " "%char || peekIs s "009"%char || peekIs s "}"%char.

(** [x.length > 0] *)
Definition nonEmpty (m : list ascii) : bool := 0 <? length m.

(** ** States *)

(** [enum States] of the source. *)
Inductive States := HTML | Expression | UnescapedExpression.

Definition States_eqb (a b : States) : bool :=
  match a, b with
  | HTML, HTML | Expression, Expression
  | UnescapedExpression, UnescapedExpression => true
  | _, _ => false
  end.

(** [htmlMode.States] is a numeric enum of the HTML mode; the source names
    only its member [Content]. *)
Definition htmlStates := nat.

(** The fields [htmlMode.State] is constructed with, in the order of the
    [super(...)] call of the constructor. *)
Record State := mkState {
  modeId : string;
  kind : htmlStates;
  lastTagName : string;
  lastAttributeName : string;
  embeddedContentType : string;
  attributeValueQuote : string;
  attributeValueLength : Z
}.

(** [class HandlebarsState extends htmlMode.State]: the inherited part and
    the one field the class adds. *)
Record HandlebarsState := mkHandlebarsState {
  base : State;
  handlebarsKind : States
}.

(** The constructor, with the parameters in the order of the source. *)
Definition newHandlebarsState (modeId : string) (kind : htmlStates)
    (handlebarsKind : States) (lastTagName lastAttributeName
    embeddedContentType attributeValueQuote : string)
    (attributeValueLength : Z) : HandlebarsState :=
  mkHandlebarsState
    (mkState modeId kind lastTagName lastAttributeName embeddedContentType
       attributeValueQuote attributeValueLength)
    handlebarsKind.

Definition getModeId (this : HandlebarsState) : string := modeId (base this).

(** [this.handlebarsKind = k] *)
Definition set_handlebarsKind (this : HandlebarsState) (k : States) : HandlebarsState :=
  mkHandlebarsState (base this) k.

(** [makeClone] *)
Definition makeClone (this : HandlebarsState) : HandlebarsState :=
  newHandlebarsState (getModeId this) (kind (base this)) (handlebarsKind this)
    (lastTagName (base this)) (lastAttributeName (base this))
    (embeddedContentType (base this)) (attributeValueQuote (base this))
    (attributeValueLength (base this)).

(** A value of type [modes.IState]: a [HandlebarsState], or a state of
    another class (the plain HTML state stands for those). *)
Inductive IState :=
| IHandlebarsState (s : HandlebarsState)
| IOtherState (s : State).

(** Modelled from the spec: [htmlMode.State.equals], the super method, is not
    among the sources; the host state is comparable, and the comparison is
    exact on every inherited markup field. *)
Definition State_equals (a b : State) : bool :=
  String.eqb (modeId a) (modeId b)
  && Nat.eqb (kind a) (kind b)
  && String.eqb (lastTagName a) (lastTagName b)
  && String.eqb (lastAttributeName a) (lastAttributeName b)
  && String.eqb (embeddedContentType a) (embeddedContentType b)
  && String.eqb (attributeValueQuote a) (attributeValueQuote b)
  && Z.eqb (attributeValueLength a) (attributeValueLength b).

(** [equals]: the [instanceof] test, then [super.equals(other)]. *)
Definition equals (this : HandlebarsState) (other : IState) : bool :=
  match other with
  | IHandlebarsState o => State_equals (base this) (base o)
  | IOtherState _ => false
  end.

(** ** The tokenizer *)

(** The [return] statement of [tokenize] a call left through: the four
    delimiter branches, the five branches of the expression body, and the
    final [super.tokenize(stream)]. *)
Inductive Branch :=
| OpenUnescaped
| OpenEscaped
| CloseEscaped
| CloseUnescaped
| Whitespace
| HashKeyword
| SlashKeyword
| ElseKeyword
| VariableRun
| Super.

(** What a call of [tokenize] leaves behind: the [type] of the returned
    [ITokenizationResult], the state object and the stream after the call,
    and, for stating properties by branch, the branch taken. *)
Record TokenizeResult := mkResult {
  branch : Branch;
  type : string;
  state : HandlebarsState;
  stream : LineStream
}.

(** The branches of the template layer: all but the final
    [super.tokenize(stream)]. *)
Definition templateBranch (b : Branch) : bool :=
  match b with
  | Super => false
  | _ => true
  end.

(** [b && op(stream).length > 0]: the stream is touched only when [b] holds. *)
Definition guarded (b : bool) (op : LineStream -> list ascii * LineStream)
    (s : LineStream) : list ascii * LineStream :=
  if b then op s else ([], s).

Section Tokenizer.

(** The constants of [handlebarsTokenTypes], a module that is not among
    the sources. *)
Variables EMBED EMBED_UNESCAPED KEYWORD VARIABLE : string.

(** [htmlMode.State.tokenize], the super method: from the inherited fields
    and the stream it gives a token type, the inherited fields after the
    call and the position it moved the cursor to.  It knows nothing of
    [handlebarsKind], and a stream has no operation that changes the
    text. *)
Variable super_tokenize : State -> LineStream -> string * State * nat.

Definition delegate (this : HandlebarsState) (s : LineStream) : TokenizeResult :=
  let '(ty, b, p) := super_tokenize (base this) s in
  mkResult Super ty (mkHandlebarsState b (handlebarsKind this))
    (mkStream (source s) p).

(** [case States.HTML] *)
Definition tokenizeHTML (this : HandlebarsState) (s : LineStream) : TokenizeResult :=
  let (m1, s1) := advanceIfString (chars "{{{") s in
  if nonEmpty m1 then
    mkResult OpenUnescaped EMBED_UNESCAPED
      (set_handlebarsKind this UnescapedExpression) s1
  else
    let (m2, s2) := advanceIfString (chars "{{") s1 in
    if nonEmpty m2 then
      mkResult OpenEscaped EMBED (set_handlebarsKind this Expression) s2
    else delegate this s2.

(** The speculative match of [else]: [Some] stream when the keyword is
    returned, otherwise the stream the variable rule goes on with. *)
Definition elseKeyword (s : LineStream) : option LineStream * LineStream :=
  let (m, s1) := advanceIfString (chars "else") s in
  if nonEmpty m then
    if endsKeyword s1 then (Some s1, s1) else (None, goBack 4 s1)
  else (None, s1).

(** [case States.Expression: case States.UnescapedExpression:] *)
Definition tokenizeExpression (this : HandlebarsState) (s : LineStream) : TokenizeResult :=
  let k := handlebarsKind this in
  let (m1, s1) := guarded (States_eqb k Expression) (advanceIfString (chars "}}")) s in
  if nonEmpty m1 then
    mkResult CloseEscaped EMBED (set_handlebarsKind this HTML) s1
  else
    let (m2, s2) :=
      guarded (States_eqb k UnescapedExpression) (advanceIfString (chars "}}}")) s1 in
    if nonEmpty m2 then
      mkResult CloseUnescaped EMBED_UNESCAPED (set_handlebarsKind this HTML) s2
    else
      let (m3, s3) := skipWhitespace s2 in
      if nonEmpty m3 then mkResult Whitespace EmptyString this s3
      else if peekIs s3 "#"%char then
        mkResult HashKeyword KEYWORD this (snd (advanceWhile notSpaceNorBrace s3))
      else if peekIs s3 "/"%char then
        mkResult SlashKeyword KEYWORD this (snd (advanceWhile notSpaceNorBrace s3))
      else
        match elseKeyword s3 with
        | (Some s4, _) => mkResult ElseKeyword KEYWORD this s4
        | (None, s4) =>
            let (m5, s5) := advanceWhile notSpaceNorBrace s4 in
            if nonEmpty m5 then mkResult VariableRun VARIABLE this s5
            else delegate this s5
        end.

(** [tokenize] *)
Definition tokenize (this : HandlebarsState) (s : LineStream) : TokenizeResult :=
  match handlebarsKind this with
  | HTML => tokenizeHTML this s
  | Expression | UnescapedExpression => tokenizeExpression this s
  end.

(** ** The line loop

    Modelled from the spec: the loop of the host is not among the sources;
    for each line it calls [tokenize] repeatedly, with the cursor where the
    previous call left it and the state the previous call left, until the
    end of the line.  A token records the span its call consumed. *)
Record Token := mkToken {
  startIndex : nat;
  endIndex : nat;
  tokenType : string
}.

Fixpoint tokenizeFrom (fuel : nat) (this : HandlebarsState) (s : LineStream)
    : list Token * HandlebarsState * LineStream :=
  match fuel with
  | 0 => ([], this, s)
  | S fuel' =>
      if eos s then ([], this, s)
      else
        let r := tokenize this s in
        let '(toks, this', s') := tokenizeFrom fuel' (state r) (stream r) in
        (mkToken (pos s) (pos (stream r)) (type r) :: toks, this', s')
  end.

(** One line, from its first character; every call that returns consumes
    at least one character, so the length of the line is fuel enough. *)
Definition tokenizeLine (this : HandlebarsState) (line : list ascii)
    : list Token * HandlebarsState * LineStream :=
  tokenizeFrom (length line) this (startOfLine line).

(** The text of a token: the span of the line it covers. *)
Definition span (line : list ascii) (t : Token) : list ascii :=
  firstn (endIndex t - startIndex t) (skipn (startIndex t) line).

Definition tokenTexts (line : list ascii) (toks : list Token) : list (string * string) :=
  map (fun t => (tokenType t, text (span line t))) toks.

End Tokenizer.

(** The tokens tile the span from [from] to [to]: each starts where the one
    before it ended, and none is empty. *)
Fixpoint contiguous (from : nat) (toks : list Token) (to : nat) : Prop :=
  match toks with
  | [] => from = to
  | t :: toks' =>
      startIndex t = from /\ from < endIndex t
      /\ contiguous (endIndex t) toks' to
  end.

(** The host tokenizer moves the cursor forward, and stays within the line:
    what the specification asks of the fallback (it makes progress, and the
    cursor is a forward scanning handle over the text of the line). *)
Definition hostAdvances (super_tokenize : State -> LineStream -> string * State * nat) : Prop :=
  forall (b : State) (s : LineStream),
    pos s < length (source s) ->
    pos s < snd (super_tokenize b s) <= length (source s).

(** ** The mode *)

Section Mode.

(** [htmlMode.States.Content] and the identifier [this.getId()] of the
    mode. *)
Variable Content : htmlStates.
Variable getId : string.

(** What [ILeavingNestedModeData] holds besides the state; the interface
    is not among the sources. *)
Variable NestedModeBuffers : Type.

Record ILeavingNestedModeData := mkLeaving {
  buffers : NestedModeBuffers;
  stateAfterNestedMode : IState
}.

(** [super.getLeavingNestedModeData(line, state)]; [None] is [null]. *)
Variable super_getLeavingNestedModeData :
  list ascii -> IState -> option ILeavingNestedModeData.

(** [getInitialState] *)
Definition getInitialState : HandlebarsState :=
  newHandlebarsState getId Content HTML EmptyString EmptyString EmptyString
    EmptyString 0%Z.

(** [getLeavingNestedModeData] *)
Definition getLeavingNestedModeData (line : list ascii) (st : IState)
    : option ILeavingNestedModeData :=
  match super_getLeavingNestedModeData line st with
  | Some leavingNestedModeData =>
      Some (mkLeaving (buffers leavingNestedModeData)
              (IHandlebarsState
                 (newHandlebarsState getId Content HTML EmptyString
                    EmptyString EmptyString EmptyString 0%Z)))
  | None => None
  end.

End Mode.

Arguments mkLeaving {NestedModeBuffers}.
Arguments buffers {NestedModeBuffers}.
Arguments stateAfterNestedMode {NestedModeBuffers}.
Arguments getLeavingNestedModeData Content getId {NestedModeBuffers}.

(** ** State objects

    A state is an object: [makeClone] allocates a new one, and [tokenize]
    writes [this.handlebarsKind] in place.  The store maps a reference to the
    object it names; references are allocated in order. *)
Definition Ref := nat.

Definition Heap := list HandlebarsState.

Definition deref (h : Heap) (r : Ref) : option HandlebarsState := nth_error h r.

(** [new HandlebarsState(...)]: the next free reference names the object. *)
Definition alloc (h : Heap) (o : HandlebarsState) : Ref * Heap :=
  (length h, h ++ [o]).

(** A write to fields of the object [r] names: [f] gives the fields after
    the write.  A reference that names no object writes nothing. *)
Fixpoint mutate (h : Heap) (r : Ref) (f : HandlebarsState -> HandlebarsState) : Heap :=
  match h, r with
  | [], _ => []
  | o :: h', 0 => f o :: h'
  | o :: h', S r' => o :: mutate h' r' f
  end.

(** [this.makeClone()] on the store. *)
Definition makeCloneRef (h : Heap) (this : Ref) : option (Ref * Heap) :=
  match deref h this with
  | Some o => Some (alloc h (makeClone o))
  | None => None
  end.

Section TokenizerOnObjects.

Variables EMBED EMBED_UNESCAPED KEYWORD VARIABLE : string.
Variable super_tokenize : State -> LineStream -> string * State * nat.

(** [this.tokenize(stream)] on the store: the state object is updated in
    place. *)
Definition tokenizeRef (h : Heap) (this : Ref) (s : LineStream) : Heap :=
  mutate h this
    (fun o => state (tokenize EMBED EMBED_UNESCAPED KEYWORD VARIABLE
                       super_tokenize o s)).

End TokenizerOnObjects.

(** ** Values for examples *)

(** A host tokenizer for examples: it consumes one character, gives it the
    empty token type and leaves the inherited fields as they are. *)
Definition oneCharHost (b : State) (s : LineStream) : string * State * nat :=
  (EmptyString, b, S (pos s)).

(** [tokenize] and the line loop with that host and token types named after
    the constants. *)
Definition exampleTokenize : HandlebarsState -> LineStream -> TokenizeResult :=
  tokenize "embed" "embed.unescaped" "keyword" "variable" oneCharHost.

Definition exampleLine (this : HandlebarsState) (line : string)
    : list (string * string) * States :=
  let '(toks, this', _) :=
    tokenizeLine "embed" "embed.unescaped" "keyword" "variable" oneCharHost
      this (chars line) in
  (tokenTexts (chars line) toks, handlebarsKind this').

(** The state of a mode named [handlebars] whose [Content] is 0. *)
Definition exampleState (k : States) : HandlebarsState :=
  newHandlebarsState "handlebars" 0 k EmptyString EmptyString EmptyString
    EmptyString 0%Z.

(** ** The branches of [tokenize], read off the stream

    [Outcome this s r]: the call [this.tokenize(s)] leaves through the branch
    of [r] with the result [r]; the conditions are those the source tests on
    the way to that [return], stated on the stream as it is before the
    call. *)

(** The closing delimiter [tokenize] tries in a state is next. *)
Definition closes (k : States) (s : LineStream) : bool :=
  match k with
  | HTML => false
  | Expression => prefixb (chars "}}") (rest s)
  | UnescapedExpression => prefixb (chars "}}}") (rest s)
  end.

(** The text [else] is next and a space, a tab or a closing brace follows. *)
Definition elseIsNext (s : LineStream) : bool :=
  prefixb (chars "else") (rest s) && endsKeyword (advance 4 s).

Section Outcomes.

Variables EMBED EMBED_UNESCAPED KEYWORD VARIABLE : string.
Variable super_tokenize : State -> LineStream -> string * State * nat.

Inductive Outcome (this : HandlebarsState) (s : LineStream) : TokenizeResult -> Prop :=
| OutOpenUnescaped :
    handlebarsKind this = HTML ->
    prefixb (chars "{{{") (rest s) = true ->
    Outcome this s
      (mkResult OpenUnescaped EMBED_UNESCAPED
         (set_handlebarsKind this UnescapedExpression) (advance 3 s))
| OutOpenEscaped :
    handlebarsKind this = HTML ->
    prefixb (chars "{{{") (rest s) = false ->
    prefixb (chars "{{") (rest s) = true ->
    Outcome this s
      (mkResult OpenEscaped EMBED (set_handlebarsKind this Expression)
         (advance 2 s))
| OutSuperHTML :
    handlebarsKind this = HTML ->
    prefixb (chars "{{{") (rest s) = false ->
    prefixb (chars "{{") (rest s) = false ->
    Outcome this s (delegate super_tokenize this s)
| OutCloseEscaped :
    handlebarsKind this = Expression ->
    prefixb (chars "}}") (rest s) = true ->
    Outcome this s
      (mkResult CloseEscaped EMBED (set_handlebarsKind this HTML) (advance 2 s))
| OutCloseUnescaped :
    handlebarsKind this = UnescapedExpression ->
    prefixb (chars "}}}") (rest s) = true ->
    Outcome this s
      (mkResult CloseUnescaped EMBED_UNESCAPED (set_handlebarsKind this HTML)
         (advance 3 s))
| OutWhitespace :
    handlebarsKind this <> HTML ->
    closes (handlebarsKind this) s = false ->
    0 < run isSpace (rest s) ->
    Outcome this s
      (mkResult Whitespace EmptyString this (advance (run isSpace (rest s)) s))
| OutHashKeyword :
    handlebarsKind this <> HTML ->
    closes (handlebarsKind this) s = false ->
    run isSpace (rest s) = 0 ->
    peekIs s "#"%char = true ->
    Outcome this s
      (mkResult HashKeyword KEYWORD this
         (advance (run notSpaceNorBrace (rest s)) s))
| OutSlashKeyword :
    handlebarsKind this <> HTML ->
    closes (handlebarsKind this) s = false ->
    run isSpace (rest s) = 0 ->
    peekIs s "#"%char = false ->
    peekIs s "/"%char = true ->
    Outcome this s
      (mkResult SlashKeyword KEYWORD this
         (advance (run notSpaceNorBrace (rest s)) s))
| OutElseKeyword :
    handlebarsKind this <> HTML ->
    closes (handlebarsKind this) s = false ->
    run isSpace (rest s) = 0 ->
    peekIs s "#"%char = false ->
    peekIs s "/"%char = false ->
    elseIsNext s = true ->
    Outcome this s (mkResult ElseKeyword KEYWORD this (advance 4 s))
| OutVariableRun :
    handlebarsKind this <> HTML ->
    closes (handlebarsKind this) s = false ->
    run isSpace (rest s) = 0 ->
    peekIs s "#"%char = false ->
    peekIs s "/"%char = false ->
    elseIsNext s = false ->
    0 < run notSpaceNorBrace (rest s) ->
    Outcome this s
      (mkResult VariableRun VARIABLE this
         (advance (run notSpaceNorBrace (rest s)) s))
| OutSuperExpression :
    handlebarsKind this <> HTML ->
    closes (handlebarsKind this) s = false ->
    run isSpace (rest s) = 0 ->
    peekIs s "#"%char = false ->
    peekIs s "/"%char = false ->
    elseIsNext s = false ->
    run notSpaceNorBrace (rest s) = 0 ->
    Outcome this s (delegate super_tokenize this s).

End Outcomes.

(** A host that returns without moving the cursor. *)
Definition idleHost (b : State) (s : LineStream) : string * State * nat :=
  ("idle", b, pos s).

(** ** Notions for the properties of whole expressions *)

(** The text a call consumed: from the cursor before it to the cursor after
    it. *)
Definition lexeme (s : LineStream) (r : TokenizeResult) : list ascii :=
  firstn (pos (stream r) - pos s) (rest s).

(** The branches that return a keyword or a variable. *)
Definition wordBranch (b : Branch) : bool :=
  match b with
  | HashKeyword | SlashKeyword | ElseKeyword | VariableRun => true
  | _ => false
  end.

(** The literal that closes the expression of a state: the one [tokenize]
    tries in that state. *)
Definition closer (k : States) : list ascii :=
  match k with
  | HTML => []
  | Expression => chars "}}"
  | UnescapedExpression => chars "}}}"
  end.

(** No character of the text is a closing brace. *)
Definition noBrace (body : list ascii) : bool :=
  forallb (fun c => negb (Ascii.eqb c "}"%char)) body.

Section HostLoop.

Variable super_tokenize : State -> LineStream -> string * State * nat.

(** The line loop over the HTML tokenizer alone: what the loop of
    [tokenizeFrom] does when every call is [super.tokenize]. *)
Fixpoint htmlFrom (fuel : nat) (b : State) (s : LineStream)
    : list Token * State * LineStream :=
  match fuel with
  | 0 => ([], b, s)
  | S fuel' =>
      if eos s then ([], b, s)
      else
        let '(ty, b', p) := super_tokenize b s in
        let '(toks, b'', s') := htmlFrom fuel' b' (mkStream (source s) p) in
        (mkToken (pos s) p ty :: toks, b'', s')
  end.

End HostLoop.

(** * Properties *)

(** ** The stream *)

Lemma run_le (p : ascii -> bool) (l : list ascii) : run p l <= length l.
Proof.
  induction l as [|c l IH]; simpl; [lia|].
  destruct (p c); simpl; lia.
Qed.

Lemma length_firstn_run (p : ascii -> bool) (l : list ascii) :
  length (firstn (run p l) l) = run p l.
Proof.
  rewrite length_firstn. pose proof (run_le p l). lia.
Qed.

Lemma nonEmpty_firstn_run (p : ascii -> bool) (l : list ascii) :
  nonEmpty (firstn (run p l) l) = (0 <? run p l).
Proof.
  unfold nonEmpty. now rewrite length_firstn_run.
Qed.

Lemma rest_length (s : LineStream) :
  length (rest s) = length (source s) - pos s.
Proof.
  unfold rest. apply length_skipn.
Qed.

Lemma prefixb_length (lit l : list ascii) :
  prefixb lit l = true -> length lit <= length l.
Proof.
  revert l; induction lit as [|a lit IH]; intros [|b l]; simpl; try lia;
    try discriminate.
  intros H. apply andb_true_iff in H as [_ H]. apply IH in H. lia.
Qed.

Lemma prefixb_bound (lit : list ascii) (s : LineStream) :
  prefixb lit (rest s) = true -> 0 < length lit ->
  pos s + length lit <= length (source s).
Proof.
  intros H Hl. apply prefixb_length in H. rewrite rest_length in H. lia.
Qed.

Lemma run_bound (p : ascii -> bool) (s : LineStream) :
  0 < run p (rest s) -> pos s + run p (rest s) <= length (source s).
Proof.
  intros H. pose proof (run_le p (rest s)) as Hr. rewrite rest_length in Hr. lia.
Qed.

Lemma peekIs_rest (s : LineStream) (c : ascii) :
  peekIs s c = true -> exists l, rest s = c :: l.
Proof.
  unfold peekIs, peek. destruct (rest s) as [|d l]; simpl; [discriminate|].
  intros H. apply Ascii.eqb_eq in H. subst d. now exists l.
Qed.

Lemma peekIs_run (s : LineStream) (c : ascii) (p : ascii -> bool) :
  peekIs s c = true -> p c = true -> 0 < run p (rest s).
Proof.
  intros H Hp. apply peekIs_rest in H as [l El]. rewrite El. simpl.
  rewrite Hp. lia.
Qed.

(** Rewinding after a successful [advanceIfString('else')] restores the
    stream as it was before the attempt. *)
Lemma goBack_advance (n : nat) (s : LineStream) : goBack n (advance n s) = s.
Proof.
  destruct s as [src p]. unfold goBack, advance. simpl. f_equal. lia.
Qed.

(** ** [equals] *)

Lemma State_equals_refl (a : State) : State_equals a a = true.
Proof.
  unfold State_equals.
  now rewrite !String.eqb_refl, Nat.eqb_refl, Z.eqb_refl.
Qed.

Lemma State_equals_eq (a b : State) : State_equals a b = true <-> a = b.
Proof.
  split; [|intros ->; apply State_equals_refl].
  unfold State_equals. destruct a, b. simpl. intros H.
  repeat (apply andb_true_iff in H; destruct H as [H ?]).
  repeat match goal with
  | E : String.eqb _ _ = true |- _ => apply String.eqb_eq in E
  | E : Nat.eqb _ _ = true |- _ => apply Nat.eqb_eq in E
  | E : Z.eqb _ _ = true |- _ => apply Z.eqb_eq in E
  end.
  congruence.
Qed.

(** What [equals] decides: the other state is a [HandlebarsState] with the
    same inherited fields.  The discriminator is not looked at. *)
Lemma equals_spec (this : HandlebarsState) (other : IState) :
  equals this other = true <->
  exists o, other = IHandlebarsState o /\ base this = base o.
Proof.
  destruct other as [o|o]; simpl.
  - rewrite State_equals_eq. split.
    + intros H. now exists o.
    + intros (o' & E & H). now inversion E; subst.
  - split; [discriminate|]. intros (o' & E & _). discriminate.
Qed.

(** C1: [equals] does not compare the discriminator: a state and the same
    state with any other [handlebarsKind] are equal for it.  The state of a
    fresh mode and the same state inside an expression are such a pair: they
    differ in [handlebarsKind], and [equals] answers true. *)
Theorem equals_ignores_handlebarsKind :
  (forall (this : HandlebarsState) (k : States),
      equals this (IHandlebarsState (set_handlebarsKind this k)) = true)
  /\ handlebarsKind (exampleState HTML) <> handlebarsKind (exampleState Expression)
  /\ equals (exampleState HTML) (IHandlebarsState (exampleState Expression)) = true.
Proof.
  split; [|split].
  - intros this k. simpl. apply State_equals_refl.
  - discriminate.
  - reflexivity.
Qed.

(** ** [tokenize], branch by branch *)

Lemma advance_0 (s : LineStream) : advance 0 s = s.
Proof.
  destruct s as [src p]. unfold advance. simpl. f_equal. lia.
Qed.

Lemma advanceIfString_match (lit : list ascii) (s : LineStream) :
  prefixb lit (rest s) = true ->
  advanceIfString lit s = (lit, advance (length lit) s).
Proof.
  intros H. unfold advanceIfString. now rewrite H.
Qed.

Lemma advanceIfString_mismatch (lit : list ascii) (s : LineStream) :
  prefixb lit (rest s) = false -> advanceIfString lit s = ([], s).
Proof.
  intros H. unfold advanceIfString. now rewrite H.
Qed.

Lemma advanceWhile_none (p : ascii -> bool) (s : LineStream) :
  run p (rest s) = 0 -> advanceWhile p s = ([], s).
Proof.
  intros H. unfold advanceWhile. rewrite H. simpl. now rewrite advance_0.
Qed.

Lemma advanceWhile_some (p : ascii -> bool) (s : LineStream) :
  0 < run p (rest s) ->
  exists m, advanceWhile p s = (m, advance (run p (rest s)) s) /\ nonEmpty m = true.
Proof.
  intros H. unfold advanceWhile. eexists. split; [reflexivity|].
  rewrite nonEmpty_firstn_run. now apply Nat.ltb_lt.
Qed.

Lemma elseKeyword_match (s : LineStream) :
  elseIsNext s = true -> elseKeyword s = (Some (advance 4 s), advance 4 s).
Proof.
  unfold elseIsNext, elseKeyword. intros H.
  apply andb_true_iff in H as [H1 H2].
  rewrite (advanceIfString_match _ _ H1). simpl. now rewrite H2.
Qed.

Lemma elseKeyword_mismatch (s : LineStream) :
  elseIsNext s = false -> elseKeyword s = (None, s).
Proof.
  unfold elseIsNext, elseKeyword. intros H.
  destruct (prefixb (chars "else") (rest s)) eqn:H1.
  - rewrite (advanceIfString_match _ _ H1). simpl in *. rewrite H.
    now rewrite (goBack_advance 4 s).
  - now rewrite (advanceIfString_mismatch _ _ H1).
Qed.

Section TokenizerProperties.

Variables EMBED EMBED_UNESCAPED KEYWORD VARIABLE : string.
Variable super_tokenize : State -> LineStream -> string * State * nat.

Local Abbreviation tokenize' :=
  (tokenize EMBED EMBED_UNESCAPED KEYWORD VARIABLE super_tokenize).
Local Abbreviation Outcome' :=
  (Outcome EMBED EMBED_UNESCAPED KEYWORD VARIABLE super_tokenize).

(** Evaluates the tests on literals and on the empty match. *)
Local Ltac literals :=
  cbv beta iota zeta;
  repeat match goal with
  | |- context [nonEmpty (chars ?l)] =>
      let v := eval vm_compute in (nonEmpty (chars l)) in
      change (nonEmpty (chars l)) with v
  | |- context [length (chars ?l)] =>
      let v := eval vm_compute in (length (chars l)) in
      change (length (chars l)) with v
  | |- context [nonEmpty []] => change (nonEmpty []) with false
  | |- context [States_eqb ?a ?b] =>
      let v := eval vm_compute in (States_eqb a b) in
      change (States_eqb a b) with v
  end;
  cbv beta iota zeta.

(** The expression body: what follows the closing delimiters in
    [tokenizeExpression], once neither of them matched. *)
Local Ltac expression_body s :=
  destruct (Nat.eq_dec (run isSpace (rest s)) 0) as [W|W];
  [ unfold skipWhitespace; rewrite (advanceWhile_none _ _ W); literals;
    destruct (peekIs s "#"%char) eqn:P1;
    [ now apply OutHashKeyword |
      destruct (peekIs s "/"%char) eqn:P2;
      [ now apply OutSlashKeyword |
        destruct (elseIsNext s) eqn:E;
        [ rewrite (elseKeyword_match _ E); now apply OutElseKeyword |
          rewrite (elseKeyword_mismatch _ E);
          destruct (Nat.eq_dec (run notSpaceNorBrace (rest s)) 0) as [V|V];
          [ rewrite (advanceWhile_none _ _ V); literals; now apply OutSuperExpression |
            destruct (advanceWhile_some notSpaceNorBrace s) as (m & -> & ->);
            [ lia | apply OutVariableRun; auto; lia ] ] ] ] ]
  | unfold skipWhitespace;
    destruct (advanceWhile_some isSpace s) as (m & -> & ->);
    [ lia | apply OutWhitespace; auto; lia ] ].

(** Every call of [tokenize] leaves through one of the branches, with the
    result [Outcome] gives for it. *)
Lemma tokenize_outcome (this : HandlebarsState) (s : LineStream) :
  Outcome' this s (tokenize' this s).
Proof.
  unfold tokenize. destruct (handlebarsKind this) eqn:K.
  - unfold tokenizeHTML.
    destruct (prefixb (chars "{{{") (rest s)) eqn:P3.
    + rewrite (advanceIfString_match _ _ P3). literals. now apply OutOpenUnescaped.
    + rewrite (advanceIfString_mismatch _ _ P3). literals.
      destruct (prefixb (chars "{{") (rest s)) eqn:P2.
      * rewrite (advanceIfString_match _ _ P2). literals. now apply OutOpenEscaped.
      * rewrite (advanceIfString_mismatch _ _ P2). literals. now apply OutSuperHTML.
  - unfold tokenizeExpression. rewrite K. unfold guarded. literals.
    destruct (prefixb (chars "}}") (rest s)) eqn:C.
    + rewrite (advanceIfString_match _ _ C). literals. now apply OutCloseEscaped.
    + rewrite (advanceIfString_mismatch _ _ C). literals.
      assert (handlebarsKind this <> HTML) by congruence.
      assert (closes (handlebarsKind this) s = false) by now rewrite K.
      expression_body s.
  - unfold tokenizeExpression. rewrite K. unfold guarded. literals.
    destruct (prefixb (chars "}}}") (rest s)) eqn:C.
    + rewrite (advanceIfString_match _ _ C). literals. now apply OutCloseUnescaped.
    + rewrite (advanceIfString_mismatch _ _ C). literals.
      assert (handlebarsKind this <> HTML) by congruence.
      assert (closes (handlebarsKind this) s = false) by now rewrite K.
      expression_body s.
Qed.

(** What each branch does to the cursor: the template branches move it
    forward within the line, and no branch changes the text. *)
Lemma Outcome_cursor (this : HandlebarsState) (s : LineStream) (r : TokenizeResult) :
  Outcome' this s r ->
  source (stream r) = source s
  /\ (templateBranch (branch r) = true ->
      pos s < pos (stream r) <= length (source s)).
Proof.
  intros O; destruct O; simpl.
  all: try (unfold delegate; destruct (super_tokenize _ _) as [[? ?] ?];
            simpl; split; [reflexivity|discriminate]).
  all: split; [reflexivity|intros _].
  all: try match goal with
       | E : elseIsNext _ = true |- _ =>
           unfold elseIsNext in E; apply andb_true_iff in E as [E _]
       end.
  all: try match goal with
       | P : peekIs ?s ?c = true |- _ =>
           apply (fun P => peekIs_run s c notSpaceNorBrace P eq_refl) in P
       end.
  all: try match goal with
       | P : prefixb ?lit (rest _) = true |- _ =>
           apply prefixb_bound in P; [simpl in P; simpl; lia | simpl; lia]
       end.
  all: match goal with
       | R : 0 < run ?p (rest _) |- _ => pose proof (run_bound _ _ R); lia
       end.
Qed.

(** Case analysis on a call of [tokenize]: the result is named [r] and the
    goal is split by the branch taken. *)
Local Ltac by_branch this s r :=
  generalize (tokenize_outcome this s);
  generalize (tokenize' this s);
  intros r O; destruct O; simpl in *.

(** C10: a call of [tokenize] that returns from a branch of the template
    layer (not through [super.tokenize]) has moved the cursor strictly
    forward: the delimiter branches by 3 ([{{{], [}}}]) or 2 ([{{], [}}])
    characters, the [else] keyword branch by 4, and the whitespace, [#], [/]
    and variable branches by the length of a run that is not empty. *)
Theorem template_branch_advances (this : HandlebarsState) (s : LineStream) :
  templateBranch (branch (tokenize' this s)) = true ->
  pos s < pos (stream (tokenize' this s))
  /\ match branch (tokenize' this s) with
     | OpenUnescaped | CloseUnescaped =>
         pos (stream (tokenize' this s)) = pos s + 3
     | OpenEscaped | CloseEscaped =>
         pos (stream (tokenize' this s)) = pos s + 2
     | ElseKeyword => pos (stream (tokenize' this s)) = pos s + 4
     | Whitespace =>
         pos (stream (tokenize' this s)) = pos s + run isSpace (rest s)
         /\ 0 < run isSpace (rest s)
     | HashKeyword | SlashKeyword | VariableRun =>
         pos (stream (tokenize' this s)) = pos s + run notSpaceNorBrace (rest s)
         /\ 0 < run notSpaceNorBrace (rest s)
     | Super => True
     end.
Proof.
  intros T. split.
  - now apply (Outcome_cursor _ _ _ (tokenize_outcome this s)).
  - revert T. by_branch this s r; intros T; try reflexivity; try (split; [reflexivity|]);
      try assumption; try exact I;
      try (eapply peekIs_run; [eassumption|reflexivity]).
    all: unfold delegate; now destruct (super_tokenize _ _) as [[? ?] ?].
Qed.

(** The discriminator after a call, by branch. *)
Lemma Outcome_handlebarsKind (this : HandlebarsState) (s : LineStream) (r : TokenizeResult) :
  Outcome' this s r ->
  match branch r with
  | OpenUnescaped =>
      handlebarsKind this = HTML
      /\ handlebarsKind (state r) = UnescapedExpression
  | OpenEscaped =>
      handlebarsKind this = HTML /\ handlebarsKind (state r) = Expression
  | CloseEscaped =>
      handlebarsKind this = Expression /\ handlebarsKind (state r) = HTML
  | CloseUnescaped =>
      handlebarsKind this = UnescapedExpression
      /\ handlebarsKind (state r) = HTML
  | Whitespace | HashKeyword | SlashKeyword | ElseKeyword | VariableRun
  | Super => handlebarsKind (state r) = handlebarsKind this
  end.
Proof.
  intros O; destruct O; simpl; auto.
  all: unfold delegate; now destruct (super_tokenize _ _) as [[? ?] ?].
Qed.

(** A call in an expression state whose closing delimiter is not next
    leaves the discriminator as it is. *)
Lemma tokenize_stays_open (this : HandlebarsState) (s : LineStream) :
  handlebarsKind this <> HTML ->
  closes (handlebarsKind this) s = false ->
  handlebarsKind (state (tokenize' this s)) = handlebarsKind this.
Proof.
  intros K C. revert K C. by_branch this s r; intros K C; try congruence.
  - rewrite H in C. simpl in C. congruence.
  - rewrite H in C. simpl in C. congruence.
  - unfold delegate; now destruct (super_tokenize _ _) as [[? ?] ?].
Qed.

Lemma tokenize_source (this : HandlebarsState) (s : LineStream) :
  source (stream (tokenize' this s)) = source s.
Proof.
  apply (Outcome_cursor _ _ _ (tokenize_outcome this s)).
Qed.

Local Abbreviation tokenizeFrom' :=
  (tokenizeFrom EMBED EMBED_UNESCAPED KEYWORD VARIABLE super_tokenize).
Local Abbreviation tokenizeLine' :=
  (tokenizeLine EMBED EMBED_UNESCAPED KEYWORD VARIABLE super_tokenize).

(** One turn of the line loop. *)
Lemma tokenizeFrom_step (fuel : nat) (this : HandlebarsState) (s : LineStream) :
  eos s = false ->
  tokenizeFrom' (S fuel) this s =
  (mkToken (pos s) (pos (stream (tokenize' this s))) (type (tokenize' this s))
     :: fst (fst (tokenizeFrom' fuel (state (tokenize' this s))
                    (stream (tokenize' this s)))),
   snd (fst (tokenizeFrom' fuel (state (tokenize' this s))
               (stream (tokenize' this s)))),
   snd (tokenizeFrom' fuel (state (tokenize' this s))
          (stream (tokenize' this s)))).
Proof.
  intros E. simpl. rewrite E.
  now destruct (tokenizeFrom' fuel _ _) as [[? ?] ?].
Qed.

Lemma tokenizeFrom_stop (fuel : nat) (this : HandlebarsState) (s : LineStream) :
  eos s = true -> tokenizeFrom' fuel this s = ([], this, s).
Proof.
  intros E. destruct fuel; simpl; [reflexivity|]. now rewrite E.
Qed.

(** A line that holds no closing delimiter of the open expression leaves the
    state in that expression, however far the loop gets. *)
Lemma tokenizeFrom_stays_open (fuel : nat) :
  forall (this : HandlebarsState) (s : LineStream),
    handlebarsKind this <> HTML ->
    (forall q, closes (handlebarsKind this) (mkStream (source s) q) = false) ->
    handlebarsKind (snd (fst (tokenizeFrom' fuel this s))) = handlebarsKind this.
Proof.
  induction fuel as [|fuel IH]; intros this s K C; [reflexivity|].
  destruct (eos s) eqn:E.
  - now rewrite (tokenizeFrom_stop _ _ _ E).
  - rewrite (tokenizeFrom_step _ _ _ E). simpl.
    assert (Hk : handlebarsKind (state (tokenize' this s)) = handlebarsKind this).
    { apply tokenize_stays_open; [assumption|].
      specialize (C (pos s)). now destruct s. }
    rewrite IH; [assumption| congruence |].
    rewrite Hk, tokenize_source. exact C.
Qed.

(** C2: the discriminator changes only in the four delimiter branches of
    [tokenize]: [{{{] and [{{] in the HTML state, [}}] leaving Expression and
    [}}}] leaving UnescapedExpression.  Every other outcome (whitespace, the
    [#] and [/] keywords, the [else] keyword, a variable, and the call of the
    HTML tokenizer) leaves it as it was.  So a line that holds no closing
    delimiter of the open expression ends in the state it began in: an
    expression left open stays open across the end of the line. *)
Theorem handlebarsKind_changes_only_at_delimiters :
  (forall (this : HandlebarsState) (s : LineStream),
      match branch (tokenize' this s) with
      | OpenUnescaped =>
          handlebarsKind this = HTML
          /\ handlebarsKind (state (tokenize' this s)) = UnescapedExpression
      | OpenEscaped =>
          handlebarsKind this = HTML
          /\ handlebarsKind (state (tokenize' this s)) = Expression
      | CloseEscaped =>
          handlebarsKind this = Expression
          /\ handlebarsKind (state (tokenize' this s)) = HTML
      | CloseUnescaped =>
          handlebarsKind this = UnescapedExpression
          /\ handlebarsKind (state (tokenize' this s)) = HTML
      | Whitespace | HashKeyword | SlashKeyword | ElseKeyword | VariableRun
      | Super =>
          handlebarsKind (state (tokenize' this s)) = handlebarsKind this
      end)
  /\ (forall (this : HandlebarsState) (line : list ascii),
        handlebarsKind this <> HTML ->
        (forall q, closes (handlebarsKind this) (mkStream line q) = false) ->
        handlebarsKind (snd (fst (tokenizeLine' this line)))
        = handlebarsKind this).
Proof.
  split.
  - intros this s. apply (Outcome_handlebarsKind _ _ _ (tokenize_outcome this s)).
  - intros this line K C. unfold tokenizeLine.
    now apply tokenizeFrom_stays_open.
Qed.

Lemma prefixb_close3_close2 (l : list ascii) :
  prefixb (chars "}}}") l = true -> prefixb (chars "}}") l = true.
Proof.
  destruct l as [|a [|b l]]; simpl; try discriminate;
    intros H; apply andb_true_iff in H as [Ha H]; try discriminate.
  apply andb_true_iff in H as [Hb _]. now rewrite Ha, Hb.
Qed.

Lemma prefixb_open3_open2 (l : list ascii) :
  prefixb (chars "{{{") l = true -> prefixb (chars "{{") l = true.
Proof.
  destruct l as [|a [|b l]]; simpl; try discriminate;
    intros H; apply andb_true_iff in H as [Ha H]; try discriminate.
  apply andb_true_iff in H as [Hb _]. now rewrite Ha, Hb.
Qed.

(** A closing brace ends every run of the expression body and is no
    whitespace, so nothing of the template layer consumes it. *)
Lemma brace_next (s : LineStream) :
  prefixb (chars "}}") (rest s) = true ->
  run isSpace (rest s) = 0 /\ run notSpaceNorBrace (rest s) = 0
  /\ peekIs s "#"%char = false /\ peekIs s "/"%char = false
  /\ elseIsNext s = false.
Proof.
  unfold peekIs, peek, elseIsNext.
  destruct (rest s) as [|a l]; [simpl; discriminate|].
  cbn [prefixb chars list_ascii_of_string].
  intros H. apply andb_true_iff in H as [Ha _]. apply Ascii.eqb_eq in Ha.
  subst a. repeat split; reflexivity.
Qed.

(** C3: the two closing delimiters are not interchangeable.  The branch that
    matches [}}}] is taken only in UnescapedExpression and gives HTML, never
    Expression; the branch that matches [}}] is taken only in Expression and
    gives HTML.  In Expression a text [}}}] is closed by its first two braces;
    in UnescapedExpression a text [}}] that is not [}}}] closes nothing: the
    call goes to the HTML tokenizer and the state stays
    UnescapedExpression. *)
Theorem closing_delimiters_not_interchangeable :
  (forall (this : HandlebarsState) (s : LineStream),
      branch (tokenize' this s) = CloseUnescaped ->
      handlebarsKind this = UnescapedExpression
      /\ prefixb (chars "}}}") (rest s) = true
      /\ handlebarsKind (state (tokenize' this s)) = HTML
      /\ handlebarsKind (state (tokenize' this s)) <> Expression)
  /\ (forall (this : HandlebarsState) (s : LineStream),
        branch (tokenize' this s) = CloseEscaped ->
        handlebarsKind this = Expression
        /\ prefixb (chars "}}") (rest s) = true
        /\ handlebarsKind (state (tokenize' this s)) = HTML)
  /\ (forall (this : HandlebarsState) (s : LineStream),
        handlebarsKind this = Expression ->
        prefixb (chars "}}}") (rest s) = true ->
        tokenize' this s
        = mkResult CloseEscaped EMBED (set_handlebarsKind this HTML) (advance 2 s))
  /\ (forall (this : HandlebarsState) (s : LineStream),
        handlebarsKind this = UnescapedExpression ->
        prefixb (chars "}}") (rest s) = true ->
        prefixb (chars "}}}") (rest s) = false ->
        tokenize' this s = delegate super_tokenize this s
        /\ handlebarsKind (state (tokenize' this s)) = UnescapedExpression).
Proof.
  split; [|split; [|split]].
  - intros this s. by_branch this s r; intros B; try discriminate.
    all: try (unfold delegate in B; destruct (super_tokenize _ _) as [[? ?] ?];
              discriminate).
    repeat split; try assumption. discriminate.
  - intros this s. by_branch this s r; intros B; try discriminate.
    all: try (unfold delegate in B; destruct (super_tokenize _ _) as [[? ?] ?];
              discriminate).
    repeat split; assumption.
  - intros this s K P. apply prefixb_close3_close2 in P. revert K P.
    by_branch this s r; intros K P; try congruence.
    all: rewrite K in *; simpl in *; congruence.
  - intros this s K P2 P3. destruct (brace_next _ P2) as (W & V & Hh & Hs & He).
    revert K P2 P3. by_branch this s r; intros K P2 P3; try congruence; try lia.
    all: split; [reflexivity|].
    all: unfold delegate; destruct (super_tokenize _ _) as [[? ?] ?]; assumption.
Qed.

(** C5: in the HTML state [tokenize] first tries the literal [{{{]: when it
    is next, the token is EMBED_UNESCAPED, three characters are consumed and
    the state becomes UnescapedExpression, so a text that starts with [{{{] is
    never taken as a match of [{{].  Only when [{{{] is not next it tries
    [{{]: the token is EMBED, two characters are consumed and the state
    becomes Expression.  When neither is next the call is the call of the
    HTML tokenizer. *)
Theorem markup_opening_delimiters (this : HandlebarsState) (s : LineStream) :
  handlebarsKind this = HTML ->
  (prefixb (chars "{{{") (rest s) = true ->
   tokenize' this s
   = mkResult OpenUnescaped EMBED_UNESCAPED
       (set_handlebarsKind this UnescapedExpression) (advance 3 s))
  /\ (prefixb (chars "{{{") (rest s) = false ->
      prefixb (chars "{{") (rest s) = true ->
      tokenize' this s
      = mkResult OpenEscaped EMBED (set_handlebarsKind this Expression)
          (advance 2 s))
  /\ (prefixb (chars "{{") (rest s) = false ->
      tokenize' this s = delegate super_tokenize this s).
Proof.
  intros K. split; [|split].
  - intros P3. revert K P3. by_branch this s r; intros K P3; congruence.
  - intros P3 P2. revert K P3 P2. by_branch this s r; intros K P3 P2; congruence.
  - intros P2.
    assert (P3 : prefixb (chars "{{{") (rest s) = false).
    { destruct (prefixb (chars "{{{") (rest s)) eqn:P3; [|reflexivity].
      apply prefixb_open3_open2 in P3. congruence. }
    revert K P3 P2. by_branch this s r; intros K P3 P2; congruence.
Qed.

Lemma rest_advance (n : nat) (s : LineStream) :
  rest (advance n s) = skipn n (rest s).
Proof.
  unfold rest, advance. simpl. rewrite skipn_skipn. f_equal. lia.
Qed.

(** What the stream shows when [else] and a character [c] are next. *)
Lemma else_next (k : States) (s : LineStream) (c : ascii) (l : list ascii) :
  rest s = chars "else" ++ c :: l ->
  closes k s = false /\ run isSpace (rest s) = 0
  /\ peekIs s "#"%char = false /\ peekIs s "/"%char = false
  /\ elseIsNext s
     = (Ascii.eqb c " "%char || Ascii.eqb c "009"%char || Ascii.eqb c "}"%char)
  /\ run notSpaceNorBrace (rest s) = 4 + run notSpaceNorBrace (c :: l).
Proof.
  intros R.
  assert (E : elseIsNext s
    = (Ascii.eqb c " "%char || Ascii.eqb c "009"%char || Ascii.eqb c "}"%char)).
  { unfold elseIsNext, endsKeyword, peekIs, peek. rewrite rest_advance, R.
    reflexivity. }
  unfold closes, peekIs, peek. rewrite E, R.
  repeat split; try reflexivity. now destruct k.
Qed.

Variables (Content : htmlStates) (getId : string).

Local Abbreviation tokensOf line :=
  (tokenTexts (chars line)
     (fst (fst (tokenizeLine' (getInitialState Content getId) (chars line))))).

(** C4: in Expression and in UnescapedExpression, when the text [else] is
    next and a space, a tab or a closing brace follows it, the token is
    KEYWORD and the cursor is past the four characters of [else].  When any
    other character follows, the cursor is taken back by 4 to where it was,
    and the variable rule consumes the run that begins with [else]: the token
    is VARIABLE.  So the line [{{else}}] gives EMBED, KEYWORD, EMBED, and the
    line [{{elseValue}}] gives EMBED, VARIABLE on the whole of [elseValue],
    EMBED. *)
Theorem else_keyword_or_variable :
  (forall (this : HandlebarsState) (s : LineStream) (c : ascii) (l : list ascii),
      handlebarsKind this <> HTML ->
      rest s = chars "else" ++ c :: l ->
      c = " "%char \/ c = "009"%char \/ c = "}"%char ->
      tokenize' this s = mkResult ElseKeyword KEYWORD this (advance 4 s))
  /\ (forall (this : HandlebarsState) (s : LineStream) (c : ascii) (l : list ascii),
        handlebarsKind this <> HTML ->
        rest s = chars "else" ++ c :: l ->
        c <> " "%char -> c <> "009"%char -> c <> "}"%char ->
        elseKeyword s = (None, goBack 4 (advance 4 s))
        /\ goBack 4 (advance 4 s) = s
        /\ tokenize' this s
           = mkResult VariableRun VARIABLE this
               (advance (4 + run notSpaceNorBrace (c :: l)) s))
  /\ tokensOf "{{else}}" = [(EMBED, "{{"); (KEYWORD, "else"); (EMBED, "}}")]
  /\ tokensOf "{{elseValue}}"
     = [(EMBED, "{{"); (VARIABLE, "elseValue"); (EMBED, "}}")].
Proof.
  split; [|split; [|split]].
  - intros this s c l K R Hc.
    destruct (else_next (handlebarsKind this) s c l R)
      as (C & W & Hh & Hs & He & Hv).
    assert (E : elseIsNext s = true).
    { rewrite He. destruct Hc as [->|[->| ->]]; reflexivity. }
    clear He Hv.
    revert K C W Hh Hs E. by_branch this s r; intros K C W Hh Hs E;
      try congruence; try lia.
    all: match goal with
         | H : handlebarsKind _ = _, C : closes _ _ = false |- _ =>
             rewrite H in C; simpl in C; congruence
         end.
  - intros this s c l K R H1 H2 H3.
    destruct (else_next (handlebarsKind this) s c l R)
      as (C & W & Hh & Hs & He & Hv).
    assert (E : elseIsNext s = false).
    { rewrite He. apply Ascii.eqb_neq in H1, H2, H3. now rewrite H1, H2, H3. }
    clear He.
    assert (P : prefixb (chars "else") (rest s) = true) by now rewrite R.
    split; [|split].
    + unfold elseKeyword. rewrite (advanceIfString_match _ _ P).
      unfold elseIsNext in E. rewrite P in E. simpl in E.
      change (length (chars "else")) with 4. cbv beta iota zeta.
      change (nonEmpty (chars "else")) with true. cbv iota. now rewrite E.
    + apply goBack_advance.
    + rewrite <- Hv.
      revert K C W Hh Hs E Hv. by_branch this s r; intros K C W Hh Hs E Hv;
        try congruence; try lia.
      all: match goal with
           | H : handlebarsKind _ = _, C : closes _ _ = false |- _ =>
             rewrite H in C; simpl in C; congruence
           end.
  - reflexivity.
  - reflexivity.
Qed.

Lemma run_maximal (p : ascii -> bool) (l : list ascii) :
  forallb p (firstn (run p l) l) = true
  /\ match skipn (run p l) l with
     | [] => True
     | c :: _ => p c = false
     end.
Proof.
  induction l as [|c l [IH1 IH2]]; simpl; [now split|].
  destruct (p c) eqn:P; simpl; [|now split].
  rewrite P. now split.
Qed.

Lemma hash_next (k : States) (s : LineStream) :
  peekIs s "#"%char = true ->
  closes k s = false /\ run isSpace (rest s) = 0.
Proof.
  intros P. apply peekIs_rest in P as [l R]. unfold closes. rewrite R.
  split; [now destruct k|reflexivity].
Qed.

(** C7 (as the code has it): the line [{{#if cond}}], from the initial
    state, gives five tokens: EMBED on [{{], KEYWORD on [#if], a token of the
    empty type on the space between [#if] and [cond], VARIABLE on [cond], and
    EMBED on [}}].  The [#] rule applies in an expression state when [#] is
    next: it consumes the longest run of characters that are neither
    whitespace nor a closing brace, returns KEYWORD and leaves the state,
    with its discriminator, as it was. *)
Theorem if_block_tokens :
  tokensOf "{{#if cond}}"
  = [(EMBED, "{{"); (KEYWORD, "#if"); (EmptyString, " "); (VARIABLE, "cond");
     (EMBED, "}}")]
  /\ (forall (this : HandlebarsState) (s : LineStream),
        handlebarsKind this <> HTML ->
        peekIs s "#"%char = true ->
        tokenize' this s
        = mkResult HashKeyword KEYWORD this
            (advance (run notSpaceNorBrace (rest s)) s))
  /\ (forall l : list ascii,
        forallb notSpaceNorBrace (firstn (run notSpaceNorBrace l) l) = true
        /\ match skipn (run notSpaceNorBrace l) l with
           | [] => True
           | c :: _ => notSpaceNorBrace c = false
           end).
Proof.
  split; [reflexivity|split].
  - intros this s K P.
    destruct (hash_next (handlebarsKind this) s P) as [C W].
    revert K P C W. by_branch this s r; intros K P C W;
      try congruence; try lia.
    all: match goal with
         | H : handlebarsKind _ = _, C : closes _ _ = false |- _ =>
             rewrite H in C; simpl in C; congruence
         end.
  - intros l. apply run_maximal.
Qed.

(** ** The line loop consumes the line *)

Lemma tokenize_progress :
  hostAdvances super_tokenize ->
  forall (this : HandlebarsState) (s : LineStream),
    pos s < length (source s) ->
    pos s < pos (stream (tokenize' this s)) <= length (source s).
Proof.
  intros HA this s L.
  pose proof (Outcome_cursor _ _ _ (tokenize_outcome this s)) as [_ T].
  specialize (HA (base this) s L).
  revert T HA. by_branch this s r; intros T HA; try (apply T; reflexivity).
  all: unfold delegate; destruct (super_tokenize _ _) as [[? ?] ?];
    simpl in *; exact HA.
Qed.

Lemma eos_false (s : LineStream) : eos s = false <-> pos s < length (source s).
Proof.
  unfold eos. rewrite Nat.leb_gt. reflexivity.
Qed.

Lemma eos_true (s : LineStream) : eos s = true <-> length (source s) <= pos s.
Proof.
  unfold eos. apply Nat.leb_le.
Qed.

(** The tokens of the loop tile the line from the cursor on, and fuel for
    the characters that remain brings the cursor to the end of the line. *)
Lemma tokenizeFrom_tiles :
  hostAdvances super_tokenize ->
  forall (fuel : nat) (this : HandlebarsState) (s : LineStream),
    pos s <= length (source s) ->
    contiguous (pos s) (fst (fst (tokenizeFrom' fuel this s)))
      (pos (snd (tokenizeFrom' fuel this s)))
    /\ source (snd (tokenizeFrom' fuel this s)) = source s
    /\ pos (snd (tokenizeFrom' fuel this s)) <= length (source s)
    /\ (length (source s) - pos s <= fuel ->
        pos (snd (tokenizeFrom' fuel this s)) = length (source s)).
Proof.
  intros HA. induction fuel as [|fuel IH]; intros this s L.
  - simpl. repeat split; try assumption. lia.
  - destruct (eos s) eqn:E.
    + rewrite (tokenizeFrom_stop _ _ _ E). simpl. apply eos_true in E.
      repeat split; try assumption. lia.
    + rewrite (tokenizeFrom_step _ _ _ E). simpl. apply eos_false in E.
      pose proof (tokenize_progress HA this s E) as [P1 P2].
      pose proof (tokenize_source this s) as S.
      destruct (IH (state (tokenize' this s)) (stream (tokenize' this s)))
        as (I1 & I2 & I3 & I4); [rewrite S; exact P2|].
      rewrite S in *. repeat split; try assumption.
      intros F. apply I4. lia.
Qed.

Lemma firstn_plus (x y : nat) (m : list ascii) :
  firstn (x + y) m = firstn x m ++ firstn y (skipn x m).
Proof.
  revert m; induction x as [|x IH]; intros m; [reflexivity|].
  destruct m as [|c m]; simpl.
  - now rewrite firstn_nil.
  - now rewrite IH.
Qed.

Lemma contiguous_le (toks : list Token) :
  forall from to, contiguous from toks to -> from <= to.
Proof.
  induction toks as [|t toks IH]; simpl; intros from to H.
  - lia.
  - destruct H as (_ & H1 & H2). apply IH in H2. lia.
Qed.

(** The spans of tokens that tile a part of the line, put together, are
    that part of the line. *)
Lemma contiguous_concat (line : list ascii) (toks : list Token) :
  forall from to,
    contiguous from toks to ->
    concat (map (span line) toks) = firstn (to - from) (skipn from line).
Proof.
  induction toks as [|t toks IH]; simpl; intros from to H.
  - subst. now rewrite Nat.sub_diag.
  - destruct H as (H0 & H1 & H2). pose proof (contiguous_le _ _ _ H2) as H3.
    rewrite (IH _ _ H2). unfold span. rewrite H0.
    replace (to - from) with ((endIndex t - from) + (to - endIndex t)) by lia.
    rewrite firstn_plus, skipn_skipn.
    replace (endIndex t - from + from) with (endIndex t) by lia.
    reflexivity.
Qed.

(** C8: with a host tokenizer that moves the cursor forward within the line,
    the calls of [tokenize] over a line, from any state (the initial state
    among them), reach the end of the line; the spans they consume follow one
    another from the first character to the last, each beginning where the
    one before ended, and put together they are the line: no character is
    lost, and none is covered twice. *)
Theorem tokens_cover_line :
  hostAdvances super_tokenize ->
  forall (this : HandlebarsState) (line : list ascii),
    pos (snd (tokenizeLine' this line)) = length line
    /\ contiguous 0 (fst (fst (tokenizeLine' this line))) (length line)
    /\ concat (map (span line) (fst (fst (tokenizeLine' this line)))) = line.
Proof.
  intros HA this line. unfold tokenizeLine.
  destruct (tokenizeFrom_tiles HA (length line) this (startOfLine line))
    as (T1 & T2 & T3 & T4); [simpl; lia|].
  simpl in T4. rewrite Nat.sub_0_r in T4. specialize (T4 (Nat.le_refl _)).
  simpl in T1. rewrite T4 in T1.
  repeat split; try assumption.
  rewrite (contiguous_concat line _ _ _ T1). simpl.
  rewrite Nat.sub_0_r. apply firstn_all.
Qed.

End TokenizerProperties.

(** ** [makeClone] *)

Lemma makeClone_eq (this : HandlebarsState) : makeClone this = this.
Proof.
  now destruct this as [[? ? ? ? ? ? ?] ?].
Qed.

Lemma deref_mutate_same (h : Heap) :
  forall (r : Ref) (f : HandlebarsState -> HandlebarsState),
    deref (mutate h r f) r = option_map f (deref h r).
Proof.
  unfold deref. induction h as [|o h IH]; intros [|r] f; simpl; auto.
Qed.

Lemma deref_mutate_other (h : Heap) :
  forall (r r' : Ref) (f : HandlebarsState -> HandlebarsState),
    r <> r' -> deref (mutate h r f) r' = deref h r'.
Proof.
  unfold deref. induction h as [|o h IH]; intros [|r] [|r'] f N; simpl; auto.
  contradiction.
Qed.

Lemma deref_alloc (h : Heap) (o : HandlebarsState) :
  deref (snd (alloc h o)) (fst (alloc h o)) = Some o
  /\ (forall r p, deref h r = Some p ->
        r <> fst (alloc h o) /\ deref (snd (alloc h o)) r = Some p).
Proof.
  unfold alloc, deref. simpl. split.
  - rewrite nth_error_app2, Nat.sub_diag; [reflexivity|lia].
  - intros r p H. assert (L : r < length h).
    { apply nth_error_Some. congruence. }
    split; [lia|]. now rewrite nth_error_app1.
Qed.

(** C6: [makeClone] gives a new object with the discriminator and every
    inherited field of the original.  The clone and the original are two
    objects: a write to fields of the clone (of [handlebarsKind], as
    [tokenize] does in place, or of any other field) leaves the original as
    it was, and a write to the original leaves the clone as it was. *)
Theorem makeClone_independent (h : Heap) (this : Ref) (o : HandlebarsState) :
  deref h this = Some o ->
  handlebarsKind (makeClone o) = handlebarsKind o
  /\ base (makeClone o) = base o
  /\ exists (c : Ref) (h' : Heap),
      makeCloneRef h this = Some (c, h')
      /\ c <> this
      /\ deref h' this = Some o
      /\ deref h' c = Some o
      /\ (forall f : HandlebarsState -> HandlebarsState,
            deref (mutate h' c f) this = Some o
            /\ deref (mutate h' c f) c = Some (f o))
      /\ (forall f : HandlebarsState -> HandlebarsState,
            deref (mutate h' this f) c = Some o
            /\ deref (mutate h' this f) this = Some (f o))
      /\ (forall (E U K V : string)
                 (super_tokenize : State -> LineStream -> string * State * nat)
                 (s : LineStream),
            deref (tokenizeRef E U K V super_tokenize h' c s) this = Some o
            /\ deref (tokenizeRef E U K V super_tokenize h' this s) c = Some o).
Proof.
  intros D. rewrite makeClone_eq. split; [reflexivity|split; [reflexivity|]].
  unfold makeCloneRef. rewrite D, makeClone_eq.
  destruct (deref_alloc h o) as [A1 A2]. destruct (A2 _ _ D) as [N A3].
  exists (fst (alloc h o)), (snd (alloc h o)).
  split; [now destruct (alloc h o)|].
  split; [congruence|]. split; [assumption|]. split; [assumption|].
  assert (M1 : forall f, deref (mutate (snd (alloc h o)) (fst (alloc h o)) f) this = Some o
                         /\ deref (mutate (snd (alloc h o)) (fst (alloc h o)) f)
                              (fst (alloc h o)) = Some (f o)).
  { intros f. rewrite deref_mutate_same, deref_mutate_other, A1, A3 by congruence.
    now split. }
  assert (M2 : forall f, deref (mutate (snd (alloc h o)) this f) (fst (alloc h o)) = Some o
                         /\ deref (mutate (snd (alloc h o)) this f) this = Some (f o)).
  { intros f. rewrite deref_mutate_same, deref_mutate_other, A1, A3 by congruence.
    now split. }
  split; [exact M1|]. split; [exact M2|].
  intros E U K V super_tokenize s. unfold tokenizeRef. split.
  - apply M1.
  - apply M2.
Qed.

(** ** Fresh states *)

(** C9: [getInitialState] gives the state with discriminator HTML, the HTML
    state [Content], the empty tag name, attribute name, embedded content
    type and quote, and the attribute value length 0.  Whenever
    [getLeavingNestedModeData] gives a result, the state after the nested
    mode in it is a fresh state of the same shape, whatever the super method
    had put there; and it gives a result exactly when the super method
    does. *)
Theorem fresh_states_are_markup
    (Content : htmlStates) (getId : string) (NestedModeBuffers : Type)
    (super_getLeavingNestedModeData :
       list ascii -> IState -> option (ILeavingNestedModeData NestedModeBuffers)) :
  getInitialState Content getId
  = mkHandlebarsState
      (mkState getId Content EmptyString EmptyString EmptyString EmptyString 0%Z)
      HTML
  /\ (forall (line : list ascii) (st : IState)
            (d : ILeavingNestedModeData NestedModeBuffers),
        getLeavingNestedModeData Content getId super_getLeavingNestedModeData
          line st = Some d ->
        stateAfterNestedMode d
        = IHandlebarsState
            (mkHandlebarsState
               (mkState getId Content EmptyString EmptyString EmptyString
                  EmptyString 0%Z)
               HTML))
  /\ (forall (line : list ascii) (st : IState),
        getLeavingNestedModeData Content getId super_getLeavingNestedModeData
          line st = None
        <-> super_getLeavingNestedModeData line st = None).
Proof.
  split; [reflexivity|split].
  - intros line st d. unfold getLeavingNestedModeData.
    destruct (super_getLeavingNestedModeData line st); [|discriminate].
    intros H. inversion H. reflexivity.
  - intros line st. unfold getLeavingNestedModeData.
    destruct (super_getLeavingNestedModeData line st); split; congruence.
Qed.

(** ** The theorems at concrete inputs *)

(** In Expression, at [}}}], the escaped closing branch is the one taken. *)
Lemma closing_delimiters_witness :
  handlebarsKind (exampleState Expression) = Expression
  /\ prefixb (chars "}}}") (rest (startOfLine (chars "}}}"))) = true
  /\ exampleTokenize (exampleState Expression) (startOfLine (chars "}}}"))
     = mkResult CloseEscaped "embed" (exampleState HTML) (mkStream (chars "}}}") 2).
Proof.
  split; [reflexivity|split; [reflexivity|]].
  exact (proj1 (proj2 (proj2
    (closing_delimiters_not_interchangeable "embed" "embed.unescaped" "keyword"
       "variable" oneCharHost)))
    (exampleState Expression) (startOfLine (chars "}}}")) eq_refl eq_refl).
Defined.

(** The line [{{foo] ends in Expression, and the line [bar baz] after it,
    which holds no [}}], ends in Expression again. *)
Lemma open_expression_witness :
  snd (exampleLine (exampleState HTML) "{{foo") = Expression
  /\ handlebarsKind (exampleState Expression) <> HTML
  /\ (forall q, closes Expression (mkStream (chars "bar baz") q) = false)
  /\ snd (exampleLine (exampleState Expression) "bar baz") = Expression.
Proof.
  assert (C : forall q, closes Expression (mkStream (chars "bar baz") q) = false).
  { intros q. do 8 (destruct q as [|q]; [reflexivity|]). reflexivity. }
  assert (K : handlebarsKind (exampleState Expression) <> HTML) by discriminate.
  split; [reflexivity|split; [exact K|split; [exact C|]]].
  pose proof (proj2
    (handlebarsKind_changes_only_at_delimiters "embed" "embed.unescaped"
       "keyword" "variable" oneCharHost)
    (exampleState Expression) (chars "bar baz") K C) as H.
  unfold exampleLine.
  destruct (tokenizeLine "embed" "embed.unescaped" "keyword" "variable"
              oneCharHost (exampleState Expression) (chars "bar baz"))
    as [[toks this'] s'].
  exact H.
Defined.

(** [else] before a closing brace, in Expression. *)
Lemma else_keyword_witness :
  handlebarsKind (exampleState Expression) <> HTML
  /\ rest (startOfLine (chars "else}}")) = chars "else" ++ "}"%char :: chars "}"
  /\ exampleTokenize (exampleState Expression) (startOfLine (chars "else}}"))
     = mkResult ElseKeyword "keyword" (exampleState Expression)
         (mkStream (chars "else}}") 4).
Proof.
  assert (K : handlebarsKind (exampleState Expression) <> HTML) by discriminate.
  split; [exact K|split; [reflexivity|]].
  exact (proj1
    (else_keyword_or_variable "embed" "embed.unescaped" "keyword" "variable"
       oneCharHost 0 "handlebars")
    (exampleState Expression) (startOfLine (chars "else}}")) "}"%char (chars "}")
    K eq_refl (or_intror (or_intror eq_refl))).
Defined.

(** [{{{] in the HTML state. *)
Lemma markup_opening_delimiters_witness :
  handlebarsKind (exampleState HTML) = HTML
  /\ prefixb (chars "{{{") (rest (startOfLine (chars "{{{x}}}"))) = true
  /\ exampleTokenize (exampleState HTML) (startOfLine (chars "{{{x}}}"))
     = mkResult OpenUnescaped "embed.unescaped"
         (exampleState UnescapedExpression) (mkStream (chars "{{{x}}}") 3).
Proof.
  split; [reflexivity|split; [reflexivity|]].
  exact (proj1
    (markup_opening_delimiters "embed" "embed.unescaped" "keyword" "variable"
       oneCharHost (exampleState HTML) (startOfLine (chars "{{{x}}}")) eq_refl)
    eq_refl).
Defined.

(** A store with one state, its clone, and a write to the clone. *)
Lemma makeClone_independent_witness :
  deref [exampleState Expression] 0 = Some (exampleState Expression)
  /\ exists (c : Ref) (h' : Heap),
      makeCloneRef [exampleState Expression] 0 = Some (c, h')
      /\ c <> 0
      /\ deref h' c = Some (exampleState Expression)
      /\ deref (mutate h' c (fun o => set_handlebarsKind o HTML)) 0
         = Some (exampleState Expression).
Proof.
  split; [reflexivity|].
  destruct (makeClone_independent [exampleState Expression] 0
              (exampleState Expression) eq_refl)
    as (_ & _ & c & h' & M & N & _ & D & W & _).
  exists c, h'. repeat split; try assumption.
  apply (W (fun o => set_handlebarsKind o HTML)).
Defined.

(** The [#] rule on [#if cond}}], in Expression. *)
Lemma if_block_witness :
  handlebarsKind (exampleState Expression) <> HTML
  /\ peekIs (mkStream (chars "{{#if cond}}") 2) "#"%char = true
  /\ exampleTokenize (exampleState Expression) (mkStream (chars "{{#if cond}}") 2)
     = mkResult HashKeyword "keyword" (exampleState Expression)
         (mkStream (chars "{{#if cond}}") 5).
Proof.
  assert (K : handlebarsKind (exampleState Expression) <> HTML) by discriminate.
  split; [exact K|split; [reflexivity|]].
  exact (proj1 (proj2
    (if_block_tokens "embed" "embed.unescaped" "keyword" "variable"
       oneCharHost 0 "handlebars"))
    (exampleState Expression) (mkStream (chars "{{#if cond}}") 2) K eq_refl).
Defined.

(** C7 (as the claim states it): the line [{{#if cond}}] does not give the four
    token types EMBED, KEYWORD, VARIABLE, EMBED: the space after [#if] is a
    token of its own, of the empty type. *)
Lemma if_block_has_whitespace_token :
  map fst (fst (exampleLine (exampleState HTML) "{{#if cond}}"))
  = ["embed"; "keyword"; EmptyString; "variable"; "embed"]
  /\ map fst (fst (exampleLine (exampleState HTML) "{{#if cond}}"))
     <> ["embed"; "keyword"; "variable"; "embed"].
Proof.
  split; [reflexivity|discriminate].
Qed.

Lemma oneCharHost_advances : hostAdvances oneCharHost.
Proof.
  intros b s L. simpl. lia.
Defined.

(** A line of markup around an expression, with the host of the examples. *)
Lemma tokens_cover_line_witness :
  hostAdvances oneCharHost
  /\ concat
       (map (span (chars "<p>{{else}}</p>"))
          (fst (fst (tokenizeLine "embed" "embed.unescaped" "keyword" "variable"
                       oneCharHost (exampleState HTML)
                       (chars "<p>{{else}}</p>")))))
     = chars "<p>{{else}}</p>".
Proof.
  split; [exact oneCharHost_advances|].
  apply (tokens_cover_line "embed" "embed.unescaped" "keyword" "variable"
           oneCharHost oneCharHost_advances (exampleState HTML)
           (chars "<p>{{else}}</p>")).
Defined.

(** A super method that always reports a nested mode that was left. *)
Lemma fresh_states_witness :
  getLeavingNestedModeData 0 "handlebars"
    (fun _ st => Some (mkLeaving (EmptyString, EmptyString) st))
    (chars "</script>") (IOtherState (base (exampleState Expression)))
  = Some (mkLeaving (EmptyString, EmptyString)
            (IHandlebarsState (exampleState HTML)))
  /\ stateAfterNestedMode
       (mkLeaving (EmptyString, EmptyString)
          (IHandlebarsState (exampleState HTML)))
     = IHandlebarsState (exampleState HTML).
Proof.
  split; [reflexivity|].
  exact (proj1 (proj2
    (fresh_states_are_markup 0 "handlebars" (string * string)%type
       (fun _ st => Some (mkLeaving (EmptyString, EmptyString) st))))
    (chars "</script>") (IOtherState (base (exampleState Expression)))
    (mkLeaving (EmptyString, EmptyString) (IHandlebarsState (exampleState HTML)))
    eq_refl).
Defined.

(** [else] before [}}], in Expression: the keyword branch moves the cursor
    by 4. *)
Lemma template_branch_advances_witness :
  templateBranch
    (branch (exampleTokenize (exampleState Expression)
               (startOfLine (chars "else}}")))) = true
  /\ pos (stream (exampleTokenize (exampleState Expression)
                   (startOfLine (chars "else}}")))) = 4.
Proof.
  split; [reflexivity|].
  exact (proj2
    (template_branch_advances "embed" "embed.unescaped" "keyword" "variable"
       oneCharHost (exampleState Expression) (startOfLine (chars "else}}"))
       eq_refl)).
Defined.

(** * Further properties of the state and of the tokenizer *)

(** X1: A clone is equal to its original for [equals], in both directions, also
    after the clone was made from a state inside an expression; and a state
    of another class is never equal to a clone. *)
Theorem equals_makeClone (this : HandlebarsState) :
  equals this (IHandlebarsState (makeClone this)) = true
  /\ equals (makeClone this) (IHandlebarsState this) = true
  /\ (forall o : State, equals (makeClone this) (IOtherState o) = false).
Proof.
  rewrite makeClone_eq. simpl. rewrite State_equals_refl. now repeat split.
Qed.

Section MoreTokenizerProperties.

Variables EMBED EMBED_UNESCAPED KEYWORD VARIABLE : string.
Variable super_tokenize : State -> LineStream -> string * State * nat.

Local Abbreviation tokenize' :=
  (tokenize EMBED EMBED_UNESCAPED KEYWORD VARIABLE super_tokenize).
Local Abbreviation tokenizeFrom' :=
  (tokenizeFrom EMBED EMBED_UNESCAPED KEYWORD VARIABLE super_tokenize).
Local Abbreviation tokenizeLine' :=
  (tokenizeLine EMBED EMBED_UNESCAPED KEYWORD VARIABLE super_tokenize).

Local Ltac by_branch this s r :=
  generalize (tokenize_outcome EMBED EMBED_UNESCAPED KEYWORD VARIABLE
                super_tokenize this s);
  generalize (tokenize' this s);
  intros r O; destruct O; simpl in *.

Local Ltac closes_absurd :=
  match goal with
  | H : handlebarsKind _ = _, C : closes _ _ = false |- _ =>
      rewrite H in C; simpl in C; congruence
  end.

(** X2: The template layer never writes an inherited field: a call that returns
    from one of its branches leaves [base] as it was.  A call that goes to
    the HTML tokenizer hands it the stream as it was on entry (every attempt
    that did not match left the cursor in place, and the rewind after [else]
    put it back), with the inherited fields as they were, and keeps the
    discriminator. *)
Theorem delegation_is_clean (this : HandlebarsState) (s : LineStream) :
  (templateBranch (branch (tokenize' this s)) = true ->
   base (state (tokenize' this s)) = base this)
  /\ (templateBranch (branch (tokenize' this s)) = false ->
      tokenize' this s = delegate super_tokenize this s
      /\ type (tokenize' this s) = fst (fst (super_tokenize (base this) s))
      /\ base (state (tokenize' this s)) = snd (fst (super_tokenize (base this) s))
      /\ pos (stream (tokenize' this s)) = snd (super_tokenize (base this) s)).
Proof.
  by_branch this s r; split; intros T; try discriminate; try reflexivity.
  all: try (unfold delegate in T; destruct (super_tokenize _ _) as [[? ?] ?];
            discriminate).
  all: unfold delegate; destruct (super_tokenize _ _) as [[? ?] ?];
    simpl; repeat split.
Qed.

(** X3: Which branches a state can take: in the HTML state a call returns an
    opening delimiter or goes to the HTML tokenizer, and never returns
    whitespace, a keyword, a variable or a closing delimiter; in the two
    expression states a call never returns an opening delimiter (a [{{]
    inside an expression opens nothing), and the closing branch it can take
    is the one of its own state. *)
Theorem branches_of_a_state (this : HandlebarsState) (s : LineStream) :
  match handlebarsKind this, branch (tokenize' this s) with
  | HTML, (OpenUnescaped | OpenEscaped | Super) => True
  | HTML, _ => False
  | Expression, (OpenUnescaped | OpenEscaped | CloseUnescaped) => False
  | Expression, _ => True
  | UnescapedExpression, (OpenUnescaped | OpenEscaped | CloseEscaped) => False
  | UnescapedExpression, _ => True
  end.
Proof.
  by_branch this s r;
    try (unfold delegate; destruct (super_tokenize _ _) as [[? ?] ?]; simpl);
    destruct (handlebarsKind this); try exact I; congruence.
Qed.

Lemma run_0_head (p : ascii -> bool) (l : list ascii) :
  run p l = 0 -> l = [] \/ exists c l', l = c :: l' /\ p c = false.
Proof.
  destruct l as [|c l]; simpl; [now left|].
  destruct (p c) eqn:P; [discriminate|]. intros _. right. now exists c, l.
Qed.

(** X4: Inside an expression the HTML tokenizer is called in two situations
    only: at the end of the line, or at a closing brace that does not begin
    the closing delimiter of the state (a single brace, or [}}] in
    UnescapedExpression). *)
Theorem expression_delegates_only_at_brace (this : HandlebarsState) (s : LineStream) :
  handlebarsKind this <> HTML ->
  branch (tokenize' this s) = Super ->
  closes (handlebarsKind this) s = false
  /\ (rest s = [] \/ peekIs s "}"%char = true).
Proof.
  by_branch this s r; intros K B; try discriminate; try congruence.
  split; [assumption|].
  match goal with
  | V : run notSpaceNorBrace (rest s) = 0, W : run isSpace (rest s) = 0 |- _ =>
      destruct (run_0_head _ _ V) as [E|(c & l & E & P)]; [now left|right];
      unfold peekIs, peek; rewrite E in *; simpl in *
  end.
  unfold notSpaceNorBrace in P. apply negb_false_iff in P.
  apply orb_true_iff in P as [P|P]; [|exact P].
  rewrite P in *. discriminate.
Qed.

Lemma prefixb_firstn (lit l : list ascii) :
  prefixb lit l = true -> firstn (length lit) l = lit.
Proof.
  revert l; induction lit as [|a lit IH]; intros [|b l]; simpl; try reflexivity;
    try discriminate.
  intros H. apply andb_true_iff in H as [Hab H].
  apply Ascii.eqb_eq in Hab. subst b. f_equal. now apply IH.
Qed.

Lemma lexeme_advance (n : nat) (s : LineStream) (b : Branch) (ty : string)
    (st : HandlebarsState) :
  lexeme s (mkResult b ty st (advance n s)) = firstn n (rest s).
Proof.
  unfold lexeme. simpl. f_equal. lia.
Qed.

Lemma run_positive_firstn (p : ascii -> bool) (l : list ascii) :
  0 < run p l -> firstn (run p l) l <> [].
Proof.
  destruct l as [|c l]; simpl; [lia|]. destruct (p c); [discriminate|lia].
Qed.

Lemma run_head (p : ascii -> bool) (c : ascii) (l : list ascii) :
  p c = true ->
  firstn (run p (c :: l)) (c :: l) = c :: firstn (run p l) l.
Proof.
  intros P. simpl. now rewrite P.
Qed.

(** X5: The text of a token, branch by branch: a delimiter token is exactly its
    delimiter; a whitespace token is a non-empty text of whitespace; the
    [else] keyword is the text [else]; a [#] or [/] keyword is that character
    followed by characters that are neither whitespace nor a closing brace;
    a variable is a non-empty text of such characters that does not begin
    with [#] or [/].  So no keyword or variable ever holds a space or a
    closing brace. *)
Theorem lexeme_by_branch (this : HandlebarsState) (s : LineStream) :
  match branch (tokenize' this s) with
  | OpenUnescaped => lexeme s (tokenize' this s) = chars "{{{"
  | OpenEscaped => lexeme s (tokenize' this s) = chars "{{"
  | CloseEscaped => lexeme s (tokenize' this s) = chars "}}"
  | CloseUnescaped => lexeme s (tokenize' this s) = chars "}}}"
  | Whitespace =>
      lexeme s (tokenize' this s) <> []
      /\ forallb isSpace (lexeme s (tokenize' this s)) = true
  | HashKeyword =>
      exists l, lexeme s (tokenize' this s) = "#"%char :: l
                /\ forallb notSpaceNorBrace l = true
  | SlashKeyword =>
      exists l, lexeme s (tokenize' this s) = "/"%char :: l
                /\ forallb notSpaceNorBrace l = true
  | ElseKeyword => lexeme s (tokenize' this s) = chars "else"
  | VariableRun =>
      lexeme s (tokenize' this s) <> []
      /\ forallb notSpaceNorBrace (lexeme s (tokenize' this s)) = true
      /\ hd_error (lexeme s (tokenize' this s)) <> Some "#"%char
      /\ hd_error (lexeme s (tokenize' this s)) <> Some "/"%char
  | Super => True
  end.
Proof.
  by_branch this s r; rewrite ?lexeme_advance.
  - now apply (prefixb_firstn (chars "{{{")).
  - now apply (prefixb_firstn (chars "{{")).
  - unfold delegate; now destruct (super_tokenize _ _) as [[? ?] ?].
  - now apply (prefixb_firstn (chars "}}")).
  - now apply (prefixb_firstn (chars "}}}")).
  - split; [now apply run_positive_firstn|apply run_maximal].
  - match goal with P : peekIs s _ = true |- _ =>
      apply peekIs_rest in P as [l R] end.
    rewrite R, run_head by reflexivity. eexists. split; [reflexivity|].
    apply run_maximal.
  - match goal with P : peekIs s _ = true |- _ =>
      apply peekIs_rest in P as [l R] end.
    rewrite R, run_head by reflexivity. eexists. split; [reflexivity|].
    apply run_maximal.
  - unfold elseIsNext in *.
    match goal with E : _ && _ = true |- _ =>
      apply andb_true_iff in E as [E _];
      now apply (prefixb_firstn (chars "else")) end.
  - split; [now apply run_positive_firstn|].
    split; [apply run_maximal|].
    unfold peekIs, peek in *. destruct (rest s) as [|c l]; simpl in *; [lia|].
    destruct (notSpaceNorBrace c); simpl; [|lia].
    split; intros E; inversion E; subst c; discriminate.
  - unfold delegate; now destruct (super_tokenize _ _) as [[? ?] ?].
Qed.

Lemma run_skipn_run (p : ascii -> bool) (l : list ascii) :
  run p (skipn (run p l) l) = 0.
Proof.
  induction l as [|c l IH]; simpl; [reflexivity|].
  destruct (p c) eqn:P; simpl; [exact IH|now rewrite P].
Qed.

Lemma prefixb_else_run (l : list ascii) :
  prefixb (chars "else") l = true -> 0 < run notSpaceNorBrace l.
Proof.
  destruct l as [|c l]; [discriminate|]. cbn [prefixb chars list_ascii_of_string].
  intros H. apply andb_true_iff in H as [H _]. apply Ascii.eqb_eq in H.
  subst c. simpl. lia.
Qed.

(** After a keyword or a variable the cursor stands before whitespace, a
    closing brace or the end of the line; after whitespace it stands before
    a character that is no whitespace. *)
Lemma Outcome_stop (this : HandlebarsState) (s : LineStream) (r : TokenizeResult) :
  Outcome EMBED EMBED_UNESCAPED KEYWORD VARIABLE super_tokenize this s r ->
  (wordBranch (branch r) = true ->
   state r = this /\ run notSpaceNorBrace (rest (stream r)) = 0)
  /\ (branch r = Whitespace ->
      state r = this /\ run isSpace (rest (stream r)) = 0).
Proof.
  intros O; destruct O; simpl; split; intros B; try discriminate;
    try (unfold delegate in B; destruct (super_tokenize _ _) as [[? ?] ?];
         discriminate);
    (split; [reflexivity|]); rewrite rest_advance; try apply run_skipn_run.
  unfold elseIsNext in *.
  match goal with E : _ && _ = true |- _ => apply andb_true_iff in E as [_ E] end.
  unfold endsKeyword, peekIs, peek in *. rewrite rest_advance in *.
  destruct (skipn 4 (rest s)) as [|c l]; [reflexivity|].
  cbn [hd_error] in *.
  repeat match goal with
  | E : _ || _ = true |- _ => apply orb_true_iff in E as [E|E]
  end;
  match goal with
  | E : Ascii.eqb _ _ = true |- _ => apply Ascii.eqb_eq in E; subst c; reflexivity
  end.
Qed.

(** X6: Tokens are maximal: a keyword or a variable is never followed directly
    by another keyword or variable (the next call returns whitespace or a
    closing delimiter, or goes to the HTML tokenizer), and a whitespace token
    is never followed directly by another whitespace token. *)
Theorem words_are_never_adjacent (this : HandlebarsState) (s : LineStream) :
  (wordBranch (branch (tokenize' this s)) = true ->
   wordBranch
     (branch (tokenize' (state (tokenize' this s)) (stream (tokenize' this s))))
   = false)
  /\ (branch (tokenize' this s) = Whitespace ->
      branch (tokenize' (state (tokenize' this s)) (stream (tokenize' this s)))
      <> Whitespace).
Proof.
  destruct (Outcome_stop this s _
              (tokenize_outcome EMBED EMBED_UNESCAPED KEYWORD VARIABLE
                 super_tokenize this s)) as [W1 W2].
  split; intros B.
  - destruct (W1 B) as [-> R]. revert R.
    by_branch this (stream (tokenize' this s)) r2; intros R; try reflexivity.
    all: try (unfold delegate; now destruct (super_tokenize _ _) as [[? ?] ?]).
    all: try match goal with
         | P : peekIs ?s1 ?c = true |- _ =>
             apply (fun P => peekIs_run s1 c notSpaceNorBrace P eq_refl) in P
         end.
    all: try (unfold elseIsNext in *;
              match goal with
              | E : _ && _ = true |- _ =>
                  apply andb_true_iff in E as [E _]; apply prefixb_else_run in E
              end).
    all: exfalso; lia.
  - destruct (W2 B) as [-> R]. revert R.
    by_branch this (stream (tokenize' this s)) r2; intros R; try discriminate;
      try lia.
    all: unfold delegate; now destruct (super_tokenize _ _) as [[? ?] ?].
Qed.

(** ** Whole lines *)

Lemma markup_delegates (this : HandlebarsState) (s : LineStream) :
  handlebarsKind this = HTML ->
  prefixb (chars "{{") (rest s) = false ->
  tokenize' this s = delegate super_tokenize this s.
Proof.
  intros K P2.
  assert (P3 : prefixb (chars "{{{") (rest s) = false).
  { destruct (prefixb (chars "{{{") (rest s)) eqn:P3; [|reflexivity].
    apply prefixb_open3_open2 in P3. congruence. }
  revert K P3 P2. by_branch this s r; intros K P3 P2; congruence.
Qed.

(** X7: Delegation is transparent on markup: on a line in which [{{] occurs
    nowhere, the loop started in the HTML state gives the tokens, the
    inherited fields and the cursor that the loop over the HTML tokenizer
    alone gives, and the state stays HTML. *)
Theorem markup_line_is_host_line (fuel : nat) :
  forall (this : HandlebarsState) (s : LineStream),
    handlebarsKind this = HTML ->
    (forall q, prefixb (chars "{{") (skipn q (source s)) = false) ->
    tokenizeFrom' fuel this s
    = (fst (fst (htmlFrom super_tokenize fuel (base this) s)),
       mkHandlebarsState (snd (fst (htmlFrom super_tokenize fuel (base this) s)))
         HTML,
       snd (htmlFrom super_tokenize fuel (base this) s)).
Proof.
  induction fuel as [|fuel IH]; intros this s K N.
  - simpl. destruct this as [b k]. simpl in *. now subst k.
  - destruct (eos s) eqn:E.
    + rewrite (tokenizeFrom_stop _ _ _ _ _ _ _ _ E). simpl. rewrite E. simpl.
      destruct this as [b k]. simpl in *. now subst k.
    + rewrite (tokenizeFrom_step _ _ _ _ _ _ _ _ E).
      rewrite (markup_delegates this s K (N (pos s))).
      simpl. rewrite E. unfold delegate.
      destruct (super_tokenize (base this) s) as [[ty b] p]. simpl.
      rewrite (IH (mkHandlebarsState b (handlebarsKind this))
                 (mkStream (source s) p) K N).
      simpl.
      now destruct (htmlFrom super_tokenize fuel b (mkStream (source s) p))
        as [[? ?] ?].
Qed.

Lemma run_app_stop (p : ascii -> bool) (body t : list ascii) (c : ascii) :
  p c = false -> run p (body ++ c :: t) = run p body.
Proof.
  intros P. induction body as [|b body IH]; simpl.
  - now rewrite P.
  - destruct (p b); [now rewrite IH|reflexivity].
Qed.

Lemma closer_brace (k : States) :
  k <> HTML -> exists t, closer k = "}"%char :: t.
Proof.
  destruct k; [congruence| |]; intros _; eexists; reflexivity.
Qed.

Lemma noBrace_skipn (n : nat) (body : list ascii) :
  noBrace body = true -> noBrace (skipn n body) = true.
Proof.
  unfold noBrace. revert body. induction n as [|n IH]; intros [|c body]; simpl;
    try tauto.
  intros H. apply andb_true_iff in H as [_ H]. now apply IH.
Qed.

Lemma closes_closer (k : States) (s : LineStream) :
  k <> HTML -> rest s = closer k -> closes k s = true.
Proof.
  intros K R. unfold closes. rewrite R. destruct k; [congruence| |]; reflexivity.
Qed.

Lemma closes_not_brace (k : States) (s : LineStream) (c : ascii) (l : list ascii) :
  rest s = c :: l -> c <> "}"%char -> closes k s = false.
Proof.
  intros R N. unfold closes. rewrite R. apply Ascii.eqb_neq in N.
  destruct k; [reflexivity| |]; cbn [prefixb chars list_ascii_of_string];
    rewrite Ascii.eqb_sym, N; reflexivity.
Qed.

Lemma prefixb_else_run4 (l : list ascii) :
  prefixb (chars "else") l = true -> 4 <= run notSpaceNorBrace l.
Proof.
  intros H. pose proof (prefixb_firstn _ _ H) as F.
  destruct l as [|a [|b [|c [|d l]]]]; try discriminate.
  cbn [length chars list_ascii_of_string firstn] in F. inversion F. simpl. lia.
Qed.

(** One call inside an expression, before a character of a body that is
    followed by a closing brace or by the end of the line: a branch of the
    template layer consumes a part of the body and leaves the state as it
    is. *)
Lemma expression_step (this : HandlebarsState) (s : LineStream)
    (c : ascii) (body tail : list ascii) :
  handlebarsKind this <> HTML ->
  rest s = (c :: body) ++ tail ->
  tail = [] \/ (exists t, tail = "}"%char :: t) ->
  noBrace (c :: body) = true ->
  templateBranch (branch (tokenize' this s)) = true
  /\ state (tokenize' this s) = this
  /\ exists n, 0 < n <= length (c :: body)
              /\ stream (tokenize' this s) = advance n s.
Proof.
  intros K R Tl N.
  assert (Nc : c <> "}"%char).
  { unfold noBrace in N. simpl in N. apply andb_true_iff in N as [N _].
    apply negb_true_iff in N. now apply Ascii.eqb_neq. }
  pose proof (closes_not_brace (handlebarsKind this) s c _ R Nc) as C.
  assert (Rs : run isSpace (rest s) = run isSpace (c :: body)).
  { rewrite R. destruct Tl as [->|[t ->]]; [now rewrite app_nil_r|].
    now apply run_app_stop. }
  assert (Rv : run notSpaceNorBrace (rest s) = run notSpaceNorBrace (c :: body)).
  { rewrite R. destruct Tl as [->|[t ->]]; [now rewrite app_nil_r|].
    now apply run_app_stop. }
  clear Tl.
  pose proof (run_le isSpace (c :: body)) as Ls.
  pose proof (run_le notSpaceNorBrace (c :: body)) as Lv.
  revert K C Rs Rv. by_branch this s r; intros K C Rs Rv; try congruence.
  all: try closes_absurd.
  all: try match goal with
       | P : peekIs ?s1 ?d = true |- _ =>
           apply (fun P => peekIs_run s1 d notSpaceNorBrace P eq_refl) in P
       end.
  all: try (repeat split; try reflexivity; eexists; split; [|reflexivity]; lia).
  - (* else *)
    repeat split; try reflexivity. exists 4. split; [|reflexivity].
    unfold elseIsNext in *.
    match goal with E : _ && _ = true |- _ =>
      apply andb_true_iff in E as [E _]; apply prefixb_else_run4 in E end.
    lia.
  - (* neither whitespace nor a run: the character is a brace *)
    exfalso. rewrite R in *. simpl in *.
    unfold notSpaceNorBrace in *.
    destruct (isSpace c) eqn:S1; [discriminate|].
    destruct (Ascii.eqb c "}"%char) eqn:S2; [|discriminate].
    apply Ascii.eqb_eq in S2. contradiction.
Qed.

(** One call inside an expression, before its closing delimiter. *)
Lemma expression_close (this : HandlebarsState) (s : LineStream) :
  handlebarsKind this <> HTML ->
  rest s = closer (handlebarsKind this) ->
  templateBranch (branch (tokenize' this s)) = true
  /\ state (tokenize' this s) = set_handlebarsKind this HTML
  /\ stream (tokenize' this s)
     = advance (length (closer (handlebarsKind this))) s.
Proof.
  intros K R. pose proof (closes_closer _ s K R) as C.
  revert K C. by_branch this s r; intros K C; try congruence.
  all: match goal with
       | H : handlebarsKind _ = _ |- _ => rewrite H; now repeat split
       end.
Qed.

(** A call that returns from a branch of the template layer does not depend
    on the HTML tokenizer. *)
Lemma template_branch_any_host
    (host : State -> LineStream -> string * State * nat)
    (this : HandlebarsState) (s : LineStream) :
  templateBranch (branch (tokenize' this s)) = true ->
  tokenize EMBED EMBED_UNESCAPED KEYWORD VARIABLE host this s = tokenize' this s.
Proof.
  unfold tokenize, tokenizeHTML, tokenizeExpression.
  repeat match goal with
  | |- context [handlebarsKind ?t] => destruct (handlebarsKind t)
  | |- context [advanceIfString ?l ?x] => destruct (advanceIfString l x)
  | |- context [guarded ?b ?f ?x] => destruct (guarded b f x)
  | |- context [skipWhitespace ?x] => destruct (skipWhitespace x)
  | |- context [elseKeyword ?x] => destruct (elseKeyword x) as [[?|] ?]
  | |- context [fst (advanceWhile ?q ?x)] => destruct (advanceWhile q x)
  | |- context [let (_, _) := advanceWhile ?q ?x in _] => destruct (advanceWhile q x)
  | |- context [nonEmpty ?m] => destruct (nonEmpty m)
  | |- context [peekIs ?x ?c] => destruct (peekIs x c)
  end; simpl; try reflexivity.
  all: unfold delegate; destruct (super_tokenize _ _) as [[? ?] ?]; discriminate.
Qed.

Lemma advance_advance (n m : nat) (s : LineStream) :
  advance m (advance n s) = advance (n + m) s.
Proof.
  unfold advance. simpl. f_equal. lia.
Qed.

Lemma rest_eos (s : LineStream) (c : ascii) (l : list ascii) :
  rest s = c :: l -> eos s = false.
Proof.
  intros R. apply eos_false. pose proof (rest_length s) as L.
  rewrite R in L. simpl in L. lia.
Qed.

(** The loop inside an expression whose body holds no closing brace: it
    runs to the closing delimiter and through it. *)
Lemma expression_body_loop
    (host : State -> LineStream -> string * State * nat) (n : nat) :
  forall (body : list ascii) (this : HandlebarsState) (s : LineStream)
         (fuel : nat),
    length body <= n ->
    handlebarsKind this <> HTML ->
    rest s = body ++ closer (handlebarsKind this) ->
    noBrace body = true ->
    length body < fuel ->
    snd (fst (tokenizeFrom' fuel this s)) = set_handlebarsKind this HTML
    /\ snd (tokenizeFrom' fuel this s)
       = advance (length body + length (closer (handlebarsKind this))) s
    /\ tokenizeFrom EMBED EMBED_UNESCAPED KEYWORD VARIABLE host fuel this s
       = tokenizeFrom' fuel this s.
Proof.
  induction n as [|n IH]; intros body this s fuel Ln K R N F;
    (destruct fuel as [|fuel]; [lia|]);
    destruct (closer_brace _ K) as [t Ct].
  - destruct body; [|simpl in Ln; lia]. simpl in R.
    destruct (expression_close this s K R) as (T & St & Sm).
    assert (E : eos s = false) by (rewrite Ct in R; exact (rest_eos _ _ _ R)).
    rewrite !(tokenizeFrom_step _ _ _ _ _ _ _ _ E).
    rewrite (template_branch_any_host host this s T), St, Sm.
    assert (E' : eos (advance (length (closer (handlebarsKind this))) s) = true).
    { apply eos_true. pose proof (rest_length s) as L. rewrite R in L.
      simpl. lia. }
    rewrite !(tokenizeFrom_stop _ _ _ _ _ _ _ _ E'). simpl. now repeat split.
  - destruct body as [|c body].
    + apply (IH [] this s (S fuel)); simpl; try assumption; lia.
    + destruct (expression_step this s c body _ K R (or_intror (closer_brace _ K)) N)
        as (T & St & m & Lm & Sm).
      assert (E : eos s = false) by exact (rest_eos _ _ _ R).
      rewrite !(tokenizeFrom_step _ _ _ _ _ _ _ _ E).
      rewrite (template_branch_any_host host this s T), St, Sm.
      assert (R' : rest (advance m s)
                   = skipn m (c :: body) ++ closer (handlebarsKind this)).
      { rewrite rest_advance, R, skipn_app.
        replace (m - length (c :: body)) with 0 by lia. reflexivity. }
      assert (L' : length (skipn m (c :: body)) = length (c :: body) - m)
        by apply length_skipn.
      destruct (IH (skipn m (c :: body)) this (advance m s) fuel)
        as (I1 & I2 & I3); try assumption;
        [cbn [length] in *; lia | now apply noBrace_skipn
        | cbn [length] in *; lia |].
      cbn [fst snd]. rewrite I3, I1, I2, advance_advance, L'.
      split; [reflexivity|split; [|reflexivity]].
      f_equal. cbn [length] in *. lia.
Qed.

(** X8: Inside an expression, on a line that goes on with a body free of
    closing braces and then the closing delimiter of the state (the line of
    a whole expression after its opening delimiter, or the last line of an
    expression that began on a line before): the loop reaches the end of the
    line, the state is the one it began with but for the discriminator,
    which is HTML, and no call went to the HTML tokenizer: any other host
    gives the same tokens, state and cursor. *)
Theorem expression_body_closes
    (host : State -> LineStream -> string * State * nat)
    (this : HandlebarsState) (s : LineStream) (body : list ascii) (fuel : nat) :
  handlebarsKind this <> HTML ->
  rest s = body ++ closer (handlebarsKind this) ->
  noBrace body = true ->
  length body < fuel ->
  snd (fst (tokenizeFrom' fuel this s)) = set_handlebarsKind this HTML
  /\ pos (snd (tokenizeFrom' fuel this s)) = length (source s)
  /\ tokenizeFrom EMBED EMBED_UNESCAPED KEYWORD VARIABLE host fuel this s
     = tokenizeFrom' fuel this s.
Proof.
  intros K R N F.
  destruct (expression_body_loop host (length body) body this s fuel
              (Nat.le_refl _) K R N F) as (I1 & I2 & I3).
  split; [exact I1|split; [|exact I3]].
  rewrite I2. simpl. pose proof (rest_length s) as L.
  rewrite R, length_app in L. destruct (closer_brace _ K) as [t Ct].
  rewrite Ct in *. simpl in *. lia.
Qed.








End MoreTokenizerProperties.

(** X11: The state [getLeavingNestedModeData] puts into its result is the state
    [getInitialState] gives, whatever the line, the state passed in and the
    state the super method had chosen; everything else of the result is what
    the super method returned. *)
Theorem leaving_nested_mode_gives_initial_state
    (Content : htmlStates) (getId : string) (NestedModeBuffers : Type)
    (super_getLeavingNestedModeData :
       list ascii -> IState -> option (ILeavingNestedModeData NestedModeBuffers))
    (line : list ascii) (st : IState)
    (d : ILeavingNestedModeData NestedModeBuffers) :
  getLeavingNestedModeData Content getId super_getLeavingNestedModeData line st
  = Some d ->
  stateAfterNestedMode d = IHandlebarsState (getInitialState Content getId)
  /\ equals (getInitialState Content getId) (stateAfterNestedMode d) = true
  /\ exists d0, super_getLeavingNestedModeData line st = Some d0
                /\ buffers d = buffers d0.
Proof.
  unfold getLeavingNestedModeData.
  destruct (super_getLeavingNestedModeData line st) as [d0|]; [|discriminate].
  intros H. inversion H. subst d. simpl. rewrite State_equals_refl.
  split; [reflexivity|split; [reflexivity|]]. now exists d0.
Qed.

(** ** The further theorems at concrete inputs *)

Lemma delegation_is_clean_witness :
  templateBranch
    (branch (exampleTokenize (exampleState Expression)
               (startOfLine (chars "else}}")))) = true
  /\ base (state (exampleTokenize (exampleState Expression)
                   (startOfLine (chars "else}}"))))
     = base (exampleState Expression).
Proof.
  split; [reflexivity|].
  exact (proj1
    (delegation_is_clean "embed" "embed.unescaped" "keyword" "variable"
       oneCharHost (exampleState Expression) (startOfLine (chars "else}}")))
    eq_refl).
Defined.

Lemma expression_delegates_witness :
  handlebarsKind (exampleState UnescapedExpression) <> HTML
  /\ branch (exampleTokenize (exampleState UnescapedExpression)
              (startOfLine (chars "}}x"))) = Super
  /\ closes UnescapedExpression (startOfLine (chars "}}x")) = false
  /\ (rest (startOfLine (chars "}}x")) = []
      \/ peekIs (startOfLine (chars "}}x")) "}"%char = true).
Proof.
  assert (K : handlebarsKind (exampleState UnescapedExpression) <> HTML)
    by discriminate.
  split; [exact K|split; [reflexivity|]].
  exact (expression_delegates_only_at_brace "embed" "embed.unescaped" "keyword"
           "variable" oneCharHost (exampleState UnescapedExpression)
           (startOfLine (chars "}}x")) K eq_refl).
Defined.

Lemma words_are_never_adjacent_witness :
  wordBranch
    (branch (exampleTokenize (exampleState Expression)
               (startOfLine (chars "#if cond}}")))) = true
  /\ wordBranch
       (branch
          (exampleTokenize
             (state (exampleTokenize (exampleState Expression)
                       (startOfLine (chars "#if cond}}"))))
             (stream (exampleTokenize (exampleState Expression)
                        (startOfLine (chars "#if cond}}")))))) = false.
Proof.
  split; [reflexivity|].
  exact (proj1
    (words_are_never_adjacent "embed" "embed.unescaped" "keyword" "variable"
       oneCharHost (exampleState Expression) (startOfLine (chars "#if cond}}")))
    eq_refl).
Defined.

Lemma markup_line_is_host_line_witness :
  handlebarsKind (exampleState HTML) = HTML
  /\ (forall q, prefixb (chars "{{") (skipn q (chars "<p>")) = false)
  /\ tokenizeFrom "embed" "embed.unescaped" "keyword" "variable" oneCharHost 3
       (exampleState HTML) (startOfLine (chars "<p>"))
     = (fst (fst (htmlFrom oneCharHost 3 (base (exampleState HTML))
                    (startOfLine (chars "<p>")))),
        mkHandlebarsState
          (snd (fst (htmlFrom oneCharHost 3 (base (exampleState HTML))
                       (startOfLine (chars "<p>")))))
          HTML,
        snd (htmlFrom oneCharHost 3 (base (exampleState HTML))
               (startOfLine (chars "<p>")))).
Proof.
  assert (N : forall q, prefixb (chars "{{") (skipn q (chars "<p>")) = false).
  { intros q. do 4 (destruct q as [|q]; [reflexivity|]). reflexivity. }
  split; [reflexivity|split; [exact N|]].
  exact (markup_line_is_host_line "embed" "embed.unescaped" "keyword" "variable"
           oneCharHost 3 (exampleState HTML) (startOfLine (chars "<p>"))
           eq_refl N).
Defined.

Lemma expression_body_closes_witness :
  handlebarsKind (exampleState Expression) <> HTML
  /\ rest (mkStream (chars "{{#if cond}}") 2)
     = chars "#if cond" ++ closer (handlebarsKind (exampleState Expression))
  /\ noBrace (chars "#if cond") = true
  /\ snd (fst (tokenizeFrom "embed" "embed.unescaped" "keyword" "variable"
                 oneCharHost 10 (exampleState Expression)
                 (mkStream (chars "{{#if cond}}") 2)))
     = exampleState HTML.
Proof.
  assert (K : handlebarsKind (exampleState Expression) <> HTML) by discriminate.
  split; [exact K|split; [reflexivity|split; [reflexivity|]]].
  exact (proj1
    (expression_body_closes "embed" "embed.unescaped" "keyword" "variable"
       oneCharHost idleHost (exampleState Expression)
       (mkStream (chars "{{#if cond}}") 2) (chars "#if cond") 10
       K eq_refl eq_refl (le_S 9 9 (le_n 9)))).
Defined.



Lemma leaving_nested_mode_witness :
  getLeavingNestedModeData 0 "handlebars"
    (fun _ st => Some (mkLeaving (EmptyString, EmptyString) st))
    (chars "</style>") (IHandlebarsState (exampleState Expression))
  = Some (mkLeaving (EmptyString, EmptyString)
            (IHandlebarsState (exampleState HTML)))
  /\ stateAfterNestedMode
       (mkLeaving (EmptyString, EmptyString)
          (IHandlebarsState (exampleState HTML)))
     = IHandlebarsState (getInitialState 0 "handlebars").
Proof.
  split; [reflexivity|].
  exact (proj1
    (leaving_nested_mode_gives_initial_state 0 "handlebars"
       (string * string)%type
       (fun _ st => Some (mkLeaving (EmptyString, EmptyString) st))
       (chars "</style>") (IHandlebarsState (exampleState Expression))
       (mkLeaving (EmptyString, EmptyString)
          (IHandlebarsState (exampleState HTML)))
       eq_refl)).
Defined.
